(** * BLACK BOX orchestration core: a shallow embedding

    The development follows the subsystems of the orchestrator and the one
    worker function the coordinator's requests end in:
    - [Thermal]   : the state machine of [orchestrator/thermal.py];
    - [Store]     : the conversation store of [database/db.py];
    - [LLMService]: prompt assembly of [llm-service/inference.py];
    - [Transport] : the file transport of [orchestrator/ipc.py];
    - [Pipeline]  : the coordinator of [orchestrator/pipeline.py] and the
                    HTTP entry point of [orchestrator/main.py].

    Python [float]s that carry temperatures and durations are represented by
    rationals: only their order and their presence in maps is reasoned about. *)

From Stdlib Require Import ZArith QArith Qround Lia List String Ascii.
From Stdlib Require Import Permutation Sorted.
From stdpp Require Import base strings gmap list.

Local Open Scope string_scope.

(** Python [x < y] and [x >= y] on floats, as boolean tests on rationals. *)
Definition Qltb (x y : Q) : bool := negb (Qle_bool y x).
Definition Qgeb (x y : Q) : bool := Qle_bool y x.

(* ===================================================================== *)
(** * Thermal monitor ([orchestrator/thermal.py]) *)
(* ===================================================================== *)

Module Thermal.

Inductive ThermalState : Type := NORMAL | WARNING | CRITICAL | COOLDOWN.

Definition ThermalState_eqb (a b : ThermalState) : bool :=
  match a, b with
  | NORMAL, NORMAL | WARNING, WARNING
  | CRITICAL, CRITICAL | COOLDOWN, COOLDOWN => true
  | _, _ => false
  end.

(** The fields of [ThermalMonitor] that the state machine reads and
    writes.  [notified] records, newest first, the states
    [_trigger_callbacks] was called with; which callbacks such a call
    runs depends on what is registered for the state
    ([Sampler.callbacks_run]). *)
Record ThermalMonitor : Type := mkMonitor {
  warning_temp : Q;
  critical_temp : Q;
  cooldown_temp : Q;
  state : ThermalState;
  notified : list ThermalState
}.


Definition set_state (m : ThermalMonitor) (s : ThermalState) : ThermalMonitor :=
  mkMonitor (warning_temp m) (critical_temp m) (cooldown_temp m) s (notified m).

Definition _trigger_callbacks (m : ThermalMonitor) (s : ThermalState)
  : ThermalMonitor :=
  mkMonitor (warning_temp m) (critical_temp m) (cooldown_temp m)
            (state m) (s :: notified m).

(** [ThermalMonitor._update_state], lines 160-189. *)
Definition _update_state (m : ThermalMonitor) (max_temp : Q) : ThermalMonitor :=
  let old_state := state m in
  let m1 :=
    match state m with
    | COOLDOWN =>
        if Qltb max_temp (cooldown_temp m) then set_state m NORMAL else m
    | _ =>
        if Qgeb max_temp (critical_temp m) then set_state m CRITICAL
        else if Qgeb max_temp (warning_temp m) then set_state m WARNING
        else set_state m NORMAL
    end in
  if ThermalState_eqb old_state (state m1) then m1
  else _trigger_callbacks m1 (state m1).

(** [ThermalMonitor.trigger_cooldown], lines 287-293. *)
Definition trigger_cooldown (m : ThermalMonitor) : ThermalMonitor :=
  _trigger_callbacks (set_state m COOLDOWN) COOLDOWN.

(** [ThermalMonitor.should_throttle], lines 318-325. *)
Definition should_throttle (m : ThermalMonitor) : bool :=
  match state m with
  | CRITICAL | COOLDOWN => true
  | _ => false
  end.

(** The sampler applies [_update_state] to each sample in turn. *)
Definition run_samples (m : ThermalMonitor) (samples : list Q) : ThermalMonitor :=
  fold_left _update_state samples m.

(** The monitor with the default thresholds of [config.py]. *)
Definition default_monitor (s : ThermalState) : ThermalMonitor :=
  mkMonitor 75 85 70 s [].

End Thermal.


(* ===================================================================== *)
(** * Values shared by the subsystems *)
(* ===================================================================== *)

(** The Python exceptions that occur in the modelled code, each with the
    message it was raised with. *)
Inductive exn : Type :=
| RuntimeError (msg : string)
| TimeoutError (msg : string)
| OSError (msg : string)
| SqliteError (msg : string)
| TypeError (msg : string)
| AttributeError (msg : string).

(** [str(e)] *)
Definition str_exn (e : exn) : string :=
  match e with
  | RuntimeError m | TimeoutError m | OSError m
  | SqliteError m | TypeError m | AttributeError m => m
  end.

(** A computation that either raises or returns. *)
Definition result (A : Type) : Type := exn + A.

(** The line feed of Python's ["\n"]. *)
Definition nl : string := String (ascii_of_nat 10) EmptyString.

(** Values that reach the store as keyword arguments.  What arrives through
    the transport was decoded from JSON and is never a [datetime]; a direct
    caller of the store may pass one ([PDatetime], with its ISO rendering). *)
Inductive pyval : Type :=
| PNone
| PBool (b : bool)
| PInt (z : Z)
| PStr (s : string)
| PDatetime (iso : string)
| PComposite.

(** The slice [l[-n:]] for a positive [n]. *)
Definition last_n {A : Type} (n : nat) (l : list A) : list A :=
  skipn (List.length l - n) l.

(** One message dictionary as the coordinator and the LLM worker exchange
    it: a key may be absent, and is then read through [dict.get]. *)
Record msg_dict : Type := mkMsgDict {
  md_role : option string;
  md_content : option string;
  md_timestamp : option Z
}.

(* ===================================================================== *)
(** * Context and side-effect store ([database/db.py]) *)
(* ===================================================================== *)

Module Store.

(** Modelled from the spec: the [messages] table of [database/schema.sql],
    which is not part of the sources.  A conversation turn holds
    [(user_id, session_id?, role, content, timestamp)]; [add_message] does
    not supply [timestamp], so the column takes the store's clock reading
    at insertion, here an integer number of clock units ([msg_timestamp]).
    Rows are kept in insertion (rowid) order. *)
Record message_row : Type := mkMessage {
  msg_user_id : string;
  msg_session_id : option string;
  msg_role : string;
  msg_content : string;
  msg_timestamp : Z
}.

(** Modelled from the spec: the [reminders] table of [database/schema.sql]
    (absent), with the columns [create_reminder] inserts. *)
Record reminder_row : Type := mkReminder {
  rem_id : Z;
  rem_user_id : string;
  rem_title : pyval;
  rem_description : pyval;
  rem_due_date : string;
  rem_recurring : pyval;
  rem_completed : bool
}.

Record Database : Type := mkDatabase {
  messages : list message_row;
  reminders : list reminder_row
}.

Definition empty_db : Database := mkDatabase [] [].

(** What the embedded database engine does when a statement is executed:
    it may raise ([sio_fault]), and it stamps inserted rows with its clock
    ([sio_now]). *)
Record store_io : Type := mkStoreIO {
  sio_fault : option exn;
  sio_now : Z
}.

Definition io_ok (now : Z) : store_io := mkStoreIO None now.

(** [ORDER BY timestamp DESC] as the engine evaluates it over a scan in
    rowid order: a row goes behind every row already placed whose
    timestamp is not smaller, so rows with equal timestamps keep the scan
    order.  (SQL itself leaves the order of such rows open, see
    [sql_order_by_timestamp_desc].) *)
Fixpoint insert_desc (r : message_row) (placed : list message_row)
  : list message_row :=
  match placed with
  | [] => [r]
  | x :: rest =>
      if (msg_timestamp x <? msg_timestamp r)%Z then r :: placed
      else x :: insert_desc r rest
  end.

Definition order_by_timestamp_desc (rows : list message_row) : list message_row :=
  fold_left (fun placed r => insert_desc r placed) rows [].

(** What SQL promises of [ORDER BY timestamp DESC]: some rearrangement of
    the rows in which timestamps never increase. *)
Definition sql_order_by_timestamp_desc (rows res : list message_row) : Prop :=
  Permutation rows res /\
  StronglySorted (fun a b => (msg_timestamp b <= msg_timestamp a)%Z) res.

(** [LIMIT ?]: a negative bound means no bound. *)
Definition sql_limit {A : Type} (k : Z) (l : list A) : list A :=
  if (k <? 0)%Z then l else firstn (Z.to_nat k) l.

(** [WHERE user_id = ?] *)
Definition where_user (user_id : string) (rows : list message_row)
  : list message_row :=
  filter (fun r => msg_user_id r = user_id) rows.

(** The [SELECT] of [get_user_context], lines 129-139. *)
Definition select_context (db : Database) (user_id : string) (max_messages : Z)
  : list message_row :=
  sql_limit max_messages
    (order_by_timestamp_desc (where_user user_id (messages db))).

Definition row_dict (r : message_row) : msg_dict :=
  mkMsgDict (Some (msg_role r)) (Some (msg_content r)) (Some (msg_timestamp r)).

(** [Database.get_user_context], lines 116-151. *)
Definition get_user_context (io : store_io) (db : Database)
    (user_id : string) (max_messages : Z) : result (list msg_dict) :=
  match sio_fault io with
  | Some e => inl e
  | None => inr (map row_dict (rev (select_context db user_id max_messages)))
  end.

(** [Database.add_message], lines 153-172. *)
Definition add_message (io : store_io) (db : Database)
    (user_id role content : string) (session_id : option string)
  : result Database :=
  match sio_fault io with
  | Some e => inl e
  | None =>
      inr (mkDatabase
             (messages db ++
                [mkMessage user_id session_id role content (sio_now io)])
             (reminders db))
  end.

(** The keyword parameters of [create_reminder] besides [user_id]. *)
Definition reminder_keywords : gset string :=
  {[ "title"; "due_date"; "description"; "recurring" ]}.

(** Binding of [create_reminder(user_id, **func_args)] to the signature
    [(user_id, title, due_date, description=None, recurring=None)]. *)
Definition bind_create_reminder (kwargs : gmap string pyval)
  : result (pyval * pyval * pyval * pyval) :=
  if decide (dom kwargs ⊆ reminder_keywords) then
    match kwargs !! "title", kwargs !! "due_date" with
    | Some title, Some due_date =>
        inr (title, due_date,
             default PNone (kwargs !! "description"),
             default PNone (kwargs !! "recurring"))
    | _, _ => inl (TypeError "missing required positional argument")
    end
  else inl (TypeError "unexpected keyword argument").

(** [due_date.isoformat()] *)
Definition isoformat (v : pyval) : result string :=
  match v with
  | PDatetime iso => inr iso
  | _ => inl (AttributeError "object has no attribute isoformat")
  end.

(** Values the database driver accepts as statement parameters. *)
Definition bindable (v : pyval) : bool :=
  match v with
  | PComposite => false
  | _ => true
  end.

(** [Database.create_reminder], lines 192-226, called with keyword
    arguments; returns the new row id. *)
Definition create_reminder (io : store_io) (db : Database)
    (user_id : string) (kwargs : gmap string pyval) : result (Z * Database) :=
  match bind_create_reminder kwargs with
  | inl e => inl e
  | inr (title, due_date, description, recurring) =>
      match isoformat due_date with
      | inl e => inl e
      | inr due =>
          if bindable title && bindable description && bindable recurring then
            match sio_fault io with
            | Some e => inl e
            | None =>
                let reminder_id := Z.of_nat (S (length (reminders db))) in
                inr (reminder_id,
                     mkDatabase (messages db)
                       (reminders db ++
                          [mkReminder reminder_id user_id title description
                                      due recurring false]))
            end
          else inl (SqliteError "type is not supported")
      end
  end.

End Store.

(* ===================================================================== *)
(** * LLM worker ([llm-service/inference.py]) *)
(* ===================================================================== *)

Module LLMService.

(** The [data] object of a [generate] request as the worker reads it. *)
Record generate_data : Type := mkGenerateData {
  gd_prompt : option string;
  gd_context : option (list msg_dict);
  gd_max_tokens : option Z;
  gd_user_id : option string
}.

(** One iteration of the loop of [_build_prompt_with_context]. *)
Definition append_turn (context_str : string) (msg : msg_dict) : string :=
  let role := default "user" (md_role msg) in
  let content := default EmptyString (md_content msg) in
  context_str ++ role ++ ": " ++ content ++ nl.

(** One context turn as it appears in the prompt. *)
Definition render_turn (msg : msg_dict) : string :=
  default "user" (md_role msg) ++ ": "
  ++ default EmptyString (md_content msg) ++ nl.

(** Plain concatenation of a list of strings. *)
Definition join_all (l : list string) : string :=
  fold_right String.append EmptyString l.

(** [LLMService._build_prompt_with_context], lines 299-319. *)
Definition _build_prompt_with_context (prompt : string) (context : list msg_dict)
  : string :=
  let context_str := fold_left append_turn (last_n 5 context) EmptyString in
  context_str ++ "user: " ++ prompt ++ nl ++ "assistant: ".

(** The prompt [_handle_generate] (lines 278-289) hands to
    [engine.generate]. *)
Definition engine_prompt (data : generate_data) : string :=
  let prompt := default EmptyString (gd_prompt data) in
  let context := default [] (gd_context data) in
  _build_prompt_with_context prompt context.

End LLMService.


(* ===================================================================== *)
(** * Inter-process transport ([orchestrator/ipc.py]) *)
(* ===================================================================== *)

Module Transport.

(** The keys of [IPCManager.shm_paths]. *)
Inductive service : Type := asr | llm | tts.

Definition service_name (s : service) : string :=
  match s with
  | asr => "asr"
  | llm => "llm"
  | tts => "tts"
  end.

Definition service_eqb (a b : service) : bool :=
  match a, b with
  | asr, asr | llm, llm | tts, tts => true
  | _, _ => false
  end.

(** The transport options of [config.Settings]. *)
Record Settings : Type := mkSettings {
  shm_asr_input : string;
  shm_asr_output : string;
  shm_llm_input : string;
  shm_llm_output : string;
  shm_tts_input : string;
  shm_tts_output : string
}.

Definition default_settings : Settings :=
  mkSettings "/dev/shm/blackbox_asr_in" "/dev/shm/blackbox_asr_out"
             "/dev/shm/blackbox_llm_in" "/dev/shm/blackbox_llm_out"
             "/dev/shm/blackbox_tts_in" "/dev/shm/blackbox_tts_out".

(** The shared-memory directory: the regular files it holds, with their
    contents. *)
Abbreviation filesystem := (gmap string string).

Record IPCManager : Type := mkIPC {
  settings : Settings;
  _request_id : nat
}.

(** [IPCManager.__init__], lines 25-55. *)
Definition new_manager (st : Settings) : IPCManager := mkIPC st 0.

Definition input_path (m : IPCManager) (s : service) : string :=
  match s with
  | asr => shm_asr_input (settings m)
  | llm => shm_llm_input (settings m)
  | tts => shm_tts_input (settings m)
  end.

Definition output_path (m : IPCManager) (s : service) : string :=
  match s with
  | asr => shm_asr_output (settings m)
  | llm => shm_llm_output (settings m)
  | tts => shm_tts_output (settings m)
  end.

(** The six paths in the iteration order of [shm_paths]. *)
Definition all_paths (m : IPCManager) : list string :=
  [ input_path m asr; output_path m asr;
    input_path m llm; output_path m llm;
    input_path m tts; output_path m tts ].

(** [Path(path).touch(exist_ok=True)]: a missing file is created empty, an
    existing file keeps its content. *)
Definition touch (fs : filesystem) (path : string) : filesystem :=
  match fs !! path with
  | Some _ => fs
  | None => <[path := EmptyString]> fs
  end.

(** [open(path, 'w')] followed by [write(content)]: truncate and write. *)
Definition write_file (fs : filesystem) (path content : string) : filesystem :=
  <[path := content]> fs.

(** [IPCManager.initialize], lines 57-74. *)
Definition initialize (m : IPCManager) (fs : filesystem) : filesystem :=
  fold_left touch (all_paths m) fs.

(** [IPCManager._get_next_request_id], lines 230-233. *)
Definition _get_next_request_id (m : IPCManager) : nat * IPCManager :=
  let m' := mkIPC (settings m) (S (_request_id m)) in
  (_request_id m', m').

(** The ids handed out by [n] successive calls. *)
Fixpoint next_ids (n : nat) (m : IPCManager) : list nat :=
  match n with
  | O => []
  | S k => let '(i, m') := _get_next_request_id m in i :: next_ids k m'
  end.

(** ** Concurrent calls

    Coroutines run until they suspend; each clause of [step] is one such
    uninterrupted piece of [call_service], or one file operation of a
    worker process.  The JSON codec and the payload types are those of the
    caller. *)
Section Calls.

Variables Data Reply : Type.

Record request : Type := mkRequest {
  req_id : nat;
  req_method : string;
  req_data : Data
}.

(** A decoded response: [id], [error] and [result] may each be absent. *)
Record response : Type := mkResponse {
  resp_id : option nat;
  resp_error : option string;
  resp_result : option Reply
}.

Variable dumps : request -> string.
Variable loads : string -> option response.

(** Where one invocation of [call_service] stands. *)
Inductive call_pc : Type :=
| Ready
| Waiting (request_id : nat)
| Returned (request_id : nat) (r : option Reply)
| Raised (request_id : nat) (e : exn).

Record call : Type := mkCall {
  c_service : service;
  c_method : string;
  c_data : Data;
  c_pc : call_pc
}.

Definition set_pc (c : call) (pc : call_pc) : call :=
  mkCall (c_service c) (c_method c) (c_data c) pc.

(** [asyncio.Lock] objects, by allocation index; [true] is locked. *)
Definition new_lock (locks : list bool) : nat * list bool :=
  (List.length locks, (locks ++ [false])%list).

(** [acquire] on a lock that is held does not complete. *)
Definition acquire (l : nat) (locks : list bool) : option (list bool) :=
  match locks !! l with
  | Some false => Some (<[l := true]> locks)
  | _ => None
  end.

Definition release (l : nat) (locks : list bool) : list bool :=
  <[l := false]> locks.

Record system : Type := mkSystem {
  ipc : IPCManager;
  fs : filesystem;
  locks : list bool;
  calls : list call
}.

Inductive action : Type :=
| Enter (i : nat)
| Poll (i : nat)
| Expire (i : nat)
| WorkerRespond (s : service) (content : string)
| WorkerClear (s : service).

(** [call_service] up to its first suspension, lines 99-116 with
    [_write_request], lines 140-153: take an id, create a lock, take it,
    truncate and write the request, release. *)
Definition enter (c : call) (s : system) : option (call * system) :=
  let '(request_id, m) := _get_next_request_id (ipc s) in
  let req := mkRequest request_id (c_method c) (c_data c) in
  let '(l, locks1) := new_lock (locks s) in
  match acquire l locks1 with
  | None => None
  | Some locks2 =>
      let fs' := write_file (fs s) (input_path m (c_service c)) (dumps req) in
      Some (set_pc c (Waiting request_id),
            mkSystem m fs' (release l locks2) (calls s))
  end.

(** What [call_service] makes of an accepted response, lines 118-122. *)
Definition complete (c : call) (request_id : nat) (r : response) : call :=
  match resp_error r with
  | Some msg =>
      set_pc c (Raised request_id
        (RuntimeError (service_name (c_service c) ++ " error: " ++ msg)))
  | None => set_pc c (Returned request_id (resp_result r))
  end.

(** One iteration of the loop of [_wait_for_response], lines 178-204. *)
Definition poll (c : call) (request_id : nat) (s : system) : call * system :=
  let out := output_path (ipc s) (c_service c) in
  match fs s !! out with
  | Some response_json =>
      if (0 <? String.length response_json)%nat then
        match loads response_json with
        | Some r =>
            if decide (resp_id r = Some request_id) then
              (complete c request_id r,
               mkSystem (ipc s) (write_file (fs s) out EmptyString)
                        (locks s) (calls s))
            else (c, s)
        | None => (c, s)
        end
      else (c, s)
  | None => (c, s)
  end.

(** Expiry of [asyncio.wait_for], lines 124-126. *)
Definition expire (c : call) (request_id : nat) : call :=
  set_pc c (Raised request_id
    (TimeoutError (service_name (c_service c) ++ "." ++ c_method c
                   ++ " timed out"))).

Definition put_call (i : nat) (c : call) (s : system) : system :=
  mkSystem (ipc s) (fs s) (locks s) (<[i := c]> (calls s)).

(** One step; [None] when the action cannot be taken in this state. *)
Definition step (a : action) (s : system) : option system :=
  match a with
  | Enter i =>
      match calls s !! i with
      | Some c =>
          match c_pc c with
          | Ready =>
              match enter c s with
              | Some (c', s') => Some (put_call i c' s')
              | None => None
              end
          | _ => None
          end
      | None => None
      end
  | Poll i =>
      match calls s !! i with
      | Some c =>
          match c_pc c with
          | Waiting request_id =>
              let '(c', s') := poll c request_id s in Some (put_call i c' s')
          | _ => None
          end
      | None => None
      end
  | Expire i =>
      match calls s !! i with
      | Some c =>
          match c_pc c with
          | Waiting request_id => Some (put_call i (expire c request_id) s)
          | _ => None
          end
      | None => None
      end
  | WorkerRespond sv content =>
      Some (mkSystem (ipc s)
              (write_file (fs s) (output_path (ipc s) sv) content)
              (locks s) (calls s))
  | WorkerClear sv =>
      Some (mkSystem (ipc s)
              (write_file (fs s) (input_path (ipc s) sv) EmptyString)
              (locks s) (calls s))
  end.

Fixpoint run (schedule : list action) (s : system) : option system :=
  match schedule with
  | [] => Some s
  | a :: rest =>
      match step a s with
      | Some s' => run rest s'
      | None => None
      end
  end.

(** A call is outstanding from its write of [<service>_in] until it has
    cleared [<service>_out] (or given up). *)
Definition outstanding (c : call) : bool :=
  match c_pc c with
  | Waiting _ => true
  | _ => false
  end.

(** The id a call was given, once it has entered. *)
Definition call_id (c : call) : option nat :=
  match c_pc c with
  | Ready => None
  | Waiting n | Returned n _ | Raised n _ => Some n
  end.

(** Per-service serialisation: in no reachable state are two calls to one
    service outstanding together. *)
Definition serialized (s0 : system) : Prop :=
  forall schedule s i j ci cj,
    run schedule s0 = Some s ->
    i <> j ->
    calls s !! i = Some ci ->
    calls s !! j = Some cj ->
    c_service ci = c_service cj ->
    ~ (outstanding ci = true /\ outstanding cj = true).

(** Calls that have entered carry different ids. *)
Definition ids_distinct (s : system) : Prop :=
  forall i j ci cj n,
    calls s !! i = Some ci -> calls s !! j = Some cj ->
    call_id ci = Some n -> call_id cj = Some n -> i = j.

(** Every id in use was handed out after [lo] and by this manager. *)
Definition ids_bounded (lo : nat) (s : system) : Prop :=
  forall i c n,
    calls s !! i = Some c -> call_id c = Some n ->
    lo < n <= _request_id (ipc s).

(** No input path is also an output path. *)
Definition paths_apart (m : IPCManager) : Prop :=
  forall a b, input_path m a <> output_path m b.

(** The input file of [sv] is as it was at the start, or empty, or holds
    the complete request of a call that has entered. *)
Definition input_whole (fs0 : filesystem) (s : system) (sv : service) : Prop :=
  let path := input_path (ipc s) sv in
  fs s !! path = fs0 !! path \/
  fs s !! path = Some EmptyString \/
  exists i c n,
    calls s !! i = Some c /\ call_id c = Some n /\
    fs s !! path = Some (dumps (mkRequest n (c_method c) (c_data c))).

(** What every reachable state satisfies (see [run_invariant]). *)
Definition call_invariant (lo : nat) (st0 : Settings) (fs0 : filesystem)
    (s : system) : Prop :=
  settings (ipc s) = st0 /\
  lo <= _request_id (ipc s) /\
  ids_distinct s /\
  ids_bounded lo s /\
  (paths_apart (ipc s) -> forall sv, input_whole fs0 s sv).

(** A start state: nothing has been called yet. *)
Definition fresh_system (m : IPCManager) (fs0 : filesystem)
    (pending : list (service * string * Data)) : system :=
  mkSystem m fs0 []
    (map (fun p => mkCall (fst (fst p)) (snd (fst p)) (snd p) Ready) pending).

End Calls.

Arguments mkRequest {Data} req_id req_method req_data.
Arguments req_id {Data} r.
Arguments req_method {Data} r.
Arguments req_data {Data} r.
Arguments mkResponse {Reply} resp_id resp_error resp_result.
Arguments resp_id {Reply} r.
Arguments resp_error {Reply} r.
Arguments resp_result {Reply} r.
Arguments Ready {Reply}.
Arguments Waiting {Reply} request_id.
Arguments Returned {Reply} request_id r.
Arguments Raised {Reply} request_id e.
Arguments mkCall {Data Reply} c_service c_method c_data c_pc.
Arguments c_service {Data Reply} c.
Arguments c_method {Data Reply} c.
Arguments c_data {Data Reply} c.
Arguments c_pc {Data Reply} c.
Arguments set_pc {Data Reply} c pc.
Arguments mkSystem {Data Reply} ipc fs locks calls.
Arguments ipc {Data Reply} s.
Arguments fs {Data Reply} s.
Arguments locks {Data Reply} s.
Arguments calls {Data Reply} s.
Arguments enter {Data Reply} dumps c s.
Arguments complete {Data Reply} c request_id r.
Arguments poll {Data Reply} loads c request_id s.
Arguments expire {Data Reply} c request_id.
Arguments put_call {Data Reply} i c s.
Arguments step {Data Reply} dumps loads a s.
Arguments run {Data Reply} dumps loads schedule s.
Arguments outstanding {Data Reply} c.
Arguments call_id {Data Reply} c.
Arguments serialized {Data Reply} dumps loads s0.
Arguments ids_distinct {Data Reply} s.
Arguments ids_bounded {Data Reply} lo s.
Arguments input_whole {Data Reply} dumps fs0 s sv.
Arguments call_invariant {Data Reply} dumps lo st0 fs0 s.
Arguments fresh_system {Data Reply} m fs0 pending.

End Transport.


(* ===================================================================== *)
(** * Pipeline coordinator ([orchestrator/pipeline.py]) *)
(* ===================================================================== *)

Module Pipeline.

(** The [audio_data] argument: raw bytes as the HTTP layer reads them, or
    text (base64) as the ASR worker also accepts it. *)
Inductive audio : Type :=
| AudioBytes (b : list Byte.byte)
| AudioText (s : string).

(** The [data] object of a transport request. *)
Inductive ipc_data : Type :=
| AsrData (audio_data : audio)
| LlmData (prompt : string) (context : list msg_dict)
          (max_tokens : Z) (user_id : string)
| TtsData (text : string).

(** [json.dumps] accepts [str], numbers, lists and dicts, not [bytes]. *)
Definition json_serializable (d : ipc_data) : bool :=
  match d with
  | AsrData (AudioBytes _) => false
  | _ => true
  end.

(** What the LLM worker receives for a [generate] request. *)
Definition as_generate_data (d : ipc_data) : LLMService.generate_data :=
  match d with
  | LlmData prompt context max_tokens user_id =>
      LLMService.mkGenerateData (Some prompt) (Some context)
                                (Some max_tokens) (Some user_id)
  | _ => LLMService.mkGenerateData None None None None
  end.

Record func_call : Type := mkFuncCall {
  fc_name : option string;
  fc_arguments : option (gmap string pyval)
}.

(** The [result] objects of the three workers, with the keys the
    coordinator reads; an absent key is [None]. *)
Record asr_reply : Type := mkAsrReply { asr_text : option string }.

Record llm_reply : Type := mkLlmReply {
  llm_text : option string;
  llm_function_calls : option (list func_call);
  llm_tokens : option Z
}.

Record tts_reply : Type := mkTtsReply { tts_audio_data : option string }.

(** How one transport call ends, seen from [call_service]. *)
Inductive call_outcome (R : Type) : Type :=
| Replied (r : R)
| WorkerFailed (msg : string)
| NoReply
| WriteFailed (e : exn).

Arguments Replied {R} r.
Arguments WorkerFailed {R} msg.
Arguments NoReply {R}.
Arguments WriteFailed {R} e.

(** The places where [process_voice_input] and [voice_interact] read
    [time.time()]. *)
Inductive time_point : Type :=
| THttpStart | TPipelineStart
| TAsrStart | TAsrEnd
| TContextStart | TContextEnd
| TLlmStart | TLlmEnd
| TFuncStart | TFuncEnd
| TUpdateStart | TUpdateEnd
| TTtsStart | TTtsEnd
| TTotal | THttpEnd.

(** Everything outside the coordinator during one request: the clock,
    the three workers and the database engine, each at the place where
    the coordinator meets it. *)
Record Env : Type := mkEnv {
  env_time : time_point -> Q;
  env_uuid : string;
  env_asr : call_outcome asr_reply;
  env_llm : call_outcome llm_reply;
  env_tts : call_outcome tts_reply;
  env_get_context : Store.store_io;
  env_create_reminder : nat -> Store.store_io;
  env_add_user : Store.store_io;
  env_add_assistant : Store.store_io
}.

Record PSettings : Type := mkPSettings {
  asr_timeout_seconds : Q;
  llm_timeout_seconds : Q;
  tts_timeout_seconds : Q;
  llm_max_tokens : Z;
  llm_target_tps : Z
}.

Definition default_psettings : PSettings :=
  mkPSettings (5 # 2) (15 # 2) (3 # 2) 150 25.

Record Metrics : Type := mkMetrics {
  total_requests : nat;
  successful_requests : nat;
  failed_requests : nat;
  average_latency : Q;
  asr_average : Q;
  llm_average : Q;
  tts_average : Q
}.

Definition initial_metrics : Metrics := mkMetrics 0 0 0 0 0 0 0.

(** Records written at level WARNING or ERROR. *)
Inductive log_record : Type :=
| WarnThrottle
| WarnStageSlow (stage : string)
| WarnBelowThroughput
| WarnUnknownFunction (name : option string)
| ErrFunctionFailed (name : option string) (e : exn)
| ErrPipelineFailed (session_id : string) (e : exn).

Record ipc_call : Type := mkIpcCall {
  call_id : nat;
  call_service_name : Transport.service;
  call_method : string;
  call_data : ipc_data
}.

(** The coordinator with the objects it owns or shares.  [ipc_calls] lists
    the transport calls issued so far, oldest first. *)
Record VoicePipeline : Type := mkPipeline {
  database : Store.Database;
  thermal_monitor : Thermal.ThermalMonitor;
  psettings : PSettings;
  ipc_request_id : nat;
  ipc_calls : list ipc_call;
  _ready : bool;
  _metrics : Metrics;
  _latencies : list Q;
  log : list log_record
}.

Record voice_result : Type := mkVoiceResult {
  success : bool;
  transcription : string;
  response_text : string;
  audio_url : string;
  function_calls : list func_call;
  timing : gmap string Q;
  session_id : string
}.

(** ** Exceptions and state *)

Definition M (A : Type) : Type := VoicePipeline -> result A * VoicePipeline.

Definition ret {A : Type} (a : A) : M A := fun s => (inr a, s).

Definition raise {A : Type} (e : exn) : M A := fun s => (inl e, s).

Definition bind {A B : Type} (m : M A) (k : A -> M B) : M B :=
  fun s =>
    match m s with
    | (inl e, s') => (inl e, s')
    | (inr a, s') => k a s'
    end.

Definition try_except {A : Type} (m : M A) (handler : exn -> M A) : M A :=
  fun s =>
    match m s with
    | (inl e, s') => handler e s'
    | (inr a, s') => (inr a, s')
    end.

Definition gets {A : Type} (f : VoicePipeline -> A) : M A :=
  fun s => (inr (f s), s).

Definition modify (f : VoicePipeline -> VoicePipeline) : M unit :=
  fun s => (inr tt, f s).

Definition when (b : bool) (m : M unit) : M unit :=
  if b then m else ret tt.

Notation "'let!' x ':=' m 'in' k" := (bind m (fun x => k))
  (at level 10, x name, m at level 100, k at level 200).
Notation "m '>>' k" := (bind m (fun _ => k))
  (at level 100, k at level 200, right associativity).

Definition set_database (d : Store.Database) (s : VoicePipeline) : VoicePipeline :=
  mkPipeline d (thermal_monitor s) (psettings s) (ipc_request_id s)
             (ipc_calls s) (_ready s) (_metrics s) (_latencies s) (log s).

Definition set_metrics (m : Metrics) (lat : list Q) (s : VoicePipeline)
  : VoicePipeline :=
  mkPipeline (database s) (thermal_monitor s) (psettings s) (ipc_request_id s)
             (ipc_calls s) (_ready s) m lat (log s).

Definition add_log (r : log_record) (s : VoicePipeline) : VoicePipeline :=
  mkPipeline (database s) (thermal_monitor s) (psettings s) (ipc_request_id s)
             (ipc_calls s) (_ready s) (_metrics s) (_latencies s)
             (log s ++ [r]).

Definition record_call (sv : Transport.service) (method : string)
    (data : ipc_data) (s : VoicePipeline) : VoicePipeline :=
  let request_id := S (ipc_request_id s) in
  mkPipeline (database s) (thermal_monitor s) (psettings s) request_id
             (ipc_calls s ++ [mkIpcCall request_id sv method data])
             (_ready s) (_metrics s) (_latencies s) (log s).

Definition logger (r : log_record) : M unit := modify (add_log r).

(** ** Transport and store as the coordinator uses them *)

(** [IPCManager.call_service], lines 76-130: a fresh id, the request is
    serialised and written, and the call ends with the worker's result, a
    [RuntimeError] for a worker error, a [TimeoutError], or the exception
    of the failed write. *)
Definition call_service {R : Type} (outcome : call_outcome R)
    (sv : Transport.service) (method : string) (data : ipc_data) : M R :=
  modify (record_call sv method data) >>
  if json_serializable data then
    match outcome with
    | Replied r => ret r
    | WorkerFailed msg =>
        raise (RuntimeError (Transport.service_name sv ++ " error: " ++ msg))
    | NoReply =>
        raise (TimeoutError (Transport.service_name sv ++ "." ++ method
                             ++ " timed out"))
    | WriteFailed e => raise e
    end
  else raise (TypeError "Object of type bytes is not JSON serializable").

Definition lift_store {A : Type}
    (op : Store.Database -> result (A * Store.Database)) : M A :=
  fun s =>
    match op (database s) with
    | inl e => (inl e, s)
    | inr (a, d) => (inr a, set_database d s)
    end.

Definition db_get_user_context (io : Store.store_io) (user_id : string)
  : M (list msg_dict) :=
  lift_store (fun d =>
    match Store.get_user_context io d user_id 10 with
    | inl e => inl e
    | inr ctx => inr (ctx, d)
    end).

Definition db_add_message (io : Store.store_io) (user_id role content : string)
  : M unit :=
  lift_store (fun d =>
    match Store.add_message io d user_id role content None with
    | inl e => inl e
    | inr d' => inr (tt, d')
    end).

Definition db_create_reminder (io : Store.store_io) (user_id : string)
    (kwargs : gmap string pyval) : M Z :=
  lift_store (fun d => Store.create_reminder io d user_id kwargs).

(** ** Rounding and metrics *)

(** [round(x, ndigits)], half to even. *)
Definition py_round (x : Q) (ndigits : nat) : Q :=
  let scale := (10 ^ Z.of_nat ndigits)%Z in
  let y := (x * inject_Z scale)%Q in
  let fl := Qfloor y in
  let frac := (y - inject_Z fl)%Q in
  let n :=
    if Qltb frac (1 # 2) then fl
    else if Qltb (1 # 2) frac then (fl + 1)%Z
    else if Z.even fl then fl else (fl + 1)%Z in
  Qred (n # Z.to_pos scale).

Definition Qsum (l : list Q) : Q := fold_right Qplus 0%Q l.

Definition component_average (m : Metrics) (component : string) : Q :=
  if decide (component = "asr") then asr_average m
  else if decide (component = "llm") then llm_average m
  else tts_average m.

Definition set_component_average (m : Metrics) (component : string) (v : Q)
  : Metrics :=
  if decide (component = "asr") then
    mkMetrics (total_requests m) (successful_requests m) (failed_requests m)
              (average_latency m) v (llm_average m) (tts_average m)
  else if decide (component = "llm") then
    mkMetrics (total_requests m) (successful_requests m) (failed_requests m)
              (average_latency m) (asr_average m) v (tts_average m)
  else
    mkMetrics (total_requests m) (successful_requests m) (failed_requests m)
              (average_latency m) (asr_average m) (llm_average m) v.

(** The body of the loop over [["asr", "llm", "tts"]], lines 465-476. *)
Definition update_component (tm : gmap string Q) (m : Metrics)
    (component : string) : Metrics :=
  match tm !! component with
  | Some t =>
      let alpha := (1 # 5)%Q in
      if Qeq_bool (component_average m component) 0 then
        set_component_average m component t
      else
        set_component_average m component
          (py_round (alpha * t + (1 - alpha) * component_average m component) 3)
  | None => m
  end.

(** [VoicePipeline._update_metrics], lines 446-476.  [timing["total"]] is
    always present where it is called. *)
Definition _update_metrics (tm : gmap string Q) : M unit :=
  modify (fun s =>
    let m := _metrics s in
    let lat0 := (_latencies s ++ [default 0%Q (tm !! "total")])%list in
    let lat :=
      if (100 <? List.length lat0)%nat then last_n 100 lat0
      else lat0 in
    let m1 :=
      mkMetrics (S (total_requests m)) (S (successful_requests m))
                (failed_requests m)
                (py_round (Qsum lat / inject_Z (Z.of_nat (List.length lat))) 3)
                (asr_average m) (llm_average m) (tts_average m) in
    set_metrics (fold_left (update_component tm) ["asr"; "llm"; "tts"] m1)
                lat s).

Definition incr_failed (s : VoicePipeline) : VoicePipeline :=
  let m := _metrics s in
  set_metrics
    (mkMetrics (total_requests m) (successful_requests m)
               (S (failed_requests m)) (average_latency m)
               (asr_average m) (llm_average m) (tts_average m))
    (_latencies s) s.

(** ** The pipeline *)

(** [VoicePipeline._execute_function_calls], lines 417-444; [k] counts the
    calls already handled. *)
Fixpoint _execute_function_calls (env : Env) (k : nat)
    (calls : list func_call) (user_id : string) : M unit :=
  match calls with
  | [] => ret tt
  | call :: rest =>
      let func_name := fc_name call in
      let func_args := default ∅ (fc_arguments call) in
      try_except
        (if decide (func_name = Some "set_reminder") then
           let! _ := db_create_reminder (env_create_reminder env k)
                                        user_id func_args in
           ret tt
         else if decide (func_name = Some "access_vault") then ret tt
         else if decide (func_name = Some "play_media") then ret tt
         else logger (WarnUnknownFunction func_name))
        (fun e => logger (ErrFunctionFailed func_name e)) >>
      _execute_function_calls env (S k) rest user_id
  end.


(** The request the coordinator sends to the LLM worker, lines 204-214. *)
Definition llm_request_data (s : PSettings) (transcription : string)
    (user_context : list msg_dict) (user_id : string) : ipc_data :=
  LlmData transcription user_context (llm_max_tokens s) user_id.

(** The [prompt] field of a request. *)
Definition request_prompt (d : ipc_data) : option string :=
  match d with
  | LlmData prompt _ _ _ => Some prompt
  | _ => None
  end.

(** Step 4 of [process_voice_input], lines 243-247: the calls are handled
    and timed only when there are any. *)
Definition step_function_calls (env : Env) (function_calls : list func_call)
    (user_id : string) (timing3 : gmap string Q) : M (gmap string Q) :=
  match function_calls with
  | [] => ret timing3
  | _ :: _ =>
      let func_start := env_time env TFuncStart in
      _execute_function_calls env 0 function_calls user_id >>
      ret (<["function_execution" :=
               py_round (env_time env TFuncEnd - func_start) 3]> timing3)
  end.

(** Steps 5 to 7 of [process_voice_input], lines 253-309: context update,
    TTS, totals and metrics. *)
Definition steps_context_tts_totals (env : Env) (st : PSettings)
    (user_id session : string) (pipeline_start asr_time llm_time : Q)
    (transcription response_text : string) (function_calls : list func_call)
    (timing4 : gmap string Q) : M voice_result :=
  let now := env_time env in
  (* step 5 *)
  let context_update_start := now TUpdateStart in
  db_add_message (env_add_user env) user_id "user" transcription >>
  db_add_message (env_add_assistant env) user_id "assistant" response_text >>
  let timing5 :=
    <["context_update" := py_round (now TUpdateEnd - context_update_start) 3]>
      timing4 in
  (* step 6 *)
  let tts_start := now TTtsStart in
  let! tts_result :=
    call_service (env_tts env) Transport.tts "synthesize"
                 (TtsData response_text) in
  let tts_time := (now TTtsEnd - tts_start)%Q in
  let timing6 := <["tts" := py_round tts_time 3]> timing5 in
  when (Qltb (tts_timeout_seconds st) tts_time)
       (logger (WarnStageSlow "tts")) >>
  (* totals *)
  let total_time := (now TTotal - pipeline_start)%Q in
  let timing7 := <["total" := py_round total_time 3]> timing6 in
  let timing8 :=
    <["orchestration_overhead" :=
        py_round (total_time - (asr_time + llm_time + tts_time)) 3]> timing7 in
  _update_metrics timing8 >>
  ret (mkVoiceResult true transcription response_text
                     ("/audio/" ++ session) function_calls timing8 session).

(** The [try] block of [process_voice_input], lines 166-309: steps 1 to 3
    (ASR, context retrieval, LLM), then the steps above. *)
Definition pipeline_body (env : Env) (audio_data : audio) (user_id : string)
    (session : string) : M voice_result :=
  let now := env_time env in
  let timing0 : gmap string Q := ∅ in
  let pipeline_start := now TPipelineStart in
  let! st := gets psettings in
  (* step 1 *)
  let asr_start := now TAsrStart in
  let! transcription_result :=
    call_service (env_asr env) Transport.asr "transcribe" (AsrData audio_data) in
  let asr_time := (now TAsrEnd - asr_start)%Q in
  let timing1 := <["asr" := py_round asr_time 3]> timing0 in
  let transcription := default EmptyString (asr_text transcription_result) in
  when (Qltb (asr_timeout_seconds st) asr_time)
       (logger (WarnStageSlow "asr")) >>
  (* step 2 *)
  let context_start := now TContextStart in
  let! user_context := db_get_user_context (env_get_context env) user_id in
  let timing2 :=
    <["context_retrieval" := py_round (now TContextEnd - context_start) 3]>
      timing1 in
  (* step 3 *)
  let llm_start := now TLlmStart in
  let! llm_result :=
    call_service (env_llm env) Transport.llm "generate"
                 (llm_request_data st transcription user_context user_id) in
  let llm_time := (now TLlmEnd - llm_start)%Q in
  let timing3 := <["llm" := py_round llm_time 3]> timing2 in
  let response_text := default EmptyString (llm_text llm_result) in
  let function_calls := default [] (llm_function_calls llm_result) in
  let tokens_generated := default 0%Z (llm_tokens llm_result) in
  let measured := Qltb 0 llm_time && (0 <? tokens_generated)%Z in
  let tokens_per_second := (inject_Z tokens_generated / llm_time)%Q in
  let timing3' :=
    if measured
    then <["llm_tokens_per_second" := py_round tokens_per_second 2]> timing3
    else timing3 in
  when (measured && Qltb tokens_per_second (inject_Z (llm_target_tps st)))
       (logger WarnBelowThroughput) >>
  (* steps 4 to 7 *)
  let! timing4 := step_function_calls env function_calls user_id timing3' in
  steps_context_tts_totals env st user_id session pipeline_start asr_time
    llm_time transcription response_text function_calls timing4.

(** [VoicePipeline.process_voice_input], lines 132-314. *)
Definition process_voice_input (env : Env) (audio_data : audio)
    (user_id : string) (session_id : option string) : M voice_result :=
  let! ready := gets _ready in
  if negb ready then raise (RuntimeError "Pipeline not ready")
  else
    let! throttle := gets (fun s => Thermal.should_throttle (thermal_monitor s)) in
    when throttle (logger WarnThrottle) >>
    let session := default (env_uuid env) session_id in
    try_except
      (pipeline_body env audio_data user_id session)
      (fun e =>
         logger (ErrPipelineFailed session e) >>
         modify incr_failed >>
         raise e).

(** ** The HTTP entry point ([orchestrator/main.py]) *)

Inductive http_response : Type :=
| HTTPException (status_code : nat) (detail : string)
| VoiceResponse (body : voice_result).

Definition set_timing (r : voice_result) (tm : gmap string Q) : voice_result :=
  mkVoiceResult (success r) (transcription r) (response_text r) (audio_url r)
                (function_calls r) tm (session_id r).

(** [voice_interact], lines 244-290, once the pipeline object exists. *)
Definition voice_interact (env : Env) (audio_data : list Byte.byte)
    (user_id : string) (session_id : option string) (s : VoicePipeline)
  : http_response * VoicePipeline :=
  let start_time := env_time env THttpStart in
  match process_voice_input env (AudioBytes audio_data) user_id session_id s with
  | (inr r, s') =>
      let total_time := (env_time env THttpEnd - start_time)%Q in
      (VoiceResponse
         (set_timing r (<["total" := py_round total_time 3]> (timing r))), s')
  | (inl e, s') =>
      (HTTPException 500 ("Voice interaction failed: " ++ str_exn e), s')
  end.


(** Records that stem from [_execute_function_calls]. *)
Definition function_record (r : log_record) : bool :=
  match r with
  | WarnUnknownFunction _ | ErrFunctionFailed _ _ => true
  | _ => false
  end.

(** The entries every successful request has in its timing map. *)
Definition stage_keys : list string :=
  [ "asr"; "context_retrieval"; "llm"; "context_update"; "tts"; "total";
    "orchestration_overhead" ].


(** A sequence of requests handled one after the other. *)
Record voice_request : Type := mkVoiceRequest {
  rq_env : Env;
  rq_audio : audio;
  rq_user_id : string;
  rq_session_id : option string
}.

Fixpoint serve (requests : list voice_request) (s : VoicePipeline)
  : list (result voice_result) * VoicePipeline :=
  match requests with
  | [] => ([], s)
  | rq :: rest =>
      let '(r, s1) := process_voice_input (rq_env rq) (rq_audio rq)
                        (rq_user_id rq) (rq_session_id rq) s in
      let '(rs, s2) := serve rest s1 in
      (r :: rs, s2)
  end.

Definition is_failure {A : Type} (r : result A) : bool :=
  match r with
  | inl _ => true
  | inr _ => false
  end.

(** How many of the outcomes are failures. *)
Definition failures {A : Type} (rs : list (result A)) : nat :=
  List.length (List.filter is_failure rs).

(** [VoicePipeline.__init__] followed by a successful [initialize];
    [request_id] is where the id counter stands after the health checks
    of [_wait_for_services]. *)
Definition ready_pipeline (d : Store.Database) (t : Thermal.ThermalMonitor)
    (st : PSettings) (request_id : nat) : VoicePipeline :=
  mkPipeline d t st request_id [] true initial_metrics [] [].

End Pipeline.


(* ===================================================================== *)
(** * Thermal sampling loop ([orchestrator/thermal.py]) *)
(* ===================================================================== *)

Module Sampler.

(** [ThermalReading], lines 26-31. *)
Record ThermalReading : Type := mkReading {
  temperature : Q;
  timestamp : Q;
  zone : string
}.

(** The monitor together with its history. *)
Record Sampler : Type := mkSampler {
  monitor : Thermal.ThermalMonitor;
  readings : list ThermalReading
}.

(** [self.max_history], line 80. *)
Definition max_history : nat := 100.

(** [get_current_temperatures], lines 136-148: the zones in the order of
    [thermal_zones], each with what [_read_temperature] returned; a zone
    whose read failed is left out. *)
Fixpoint get_current_temperatures (zone_reads : list (string * option Q))
  : list (string * Q) :=
  match zone_reads with
  | [] => []
  | (name, Some t) :: rest => (name, t) :: get_current_temperatures rest
  | (_, None) :: rest => get_current_temperatures rest
  end.

(** [max(temps, key=temps.get)] paired with [max(temps.values())]: the
    first entry no later entry exceeds. *)
Definition hottest (first : string * Q) (rest : list (string * Q)) : string * Q :=
  fold_left (fun best kv => if Qltb (snd best) (snd kv) then kv else best)
            rest first.

(** [get_max_temperature], lines 150-158. *)
Definition get_max_temperature (zone_reads : list (string * option Q))
  : option Q :=
  match get_current_temperatures zone_reads with
  | [] => None
  | kv :: rest => Some (snd (hottest kv rest))
  end.

(** One turn of the loop of [_monitor_loop], lines 221-258, with the zone
    reads and the clock reading it meets. *)
Definition monitor_iteration (zone_reads : list (string * option Q)) (now : Q)
    (sp : Sampler) : Sampler :=
  match get_current_temperatures zone_reads with
  | [] => sp
  | kv :: rest =>
      let best := hottest kv rest in
      let max_temp := snd best in
      let reading := mkReading max_temp now (fst best) in
      let readings1 := (readings sp ++ [reading])%list in
      let readings2 :=
        if (max_history <? List.length readings1)%nat
        then last_n max_history readings1 else readings1 in
      mkSampler (Thermal._update_state (monitor sp) max_temp) readings2
  end.

(** The loop over a run of samples. *)
Definition monitor_loop (samples : list (list (string * option Q) * Q))
    (sp : Sampler) : Sampler :=
  fold_left (fun acc sample => monitor_iteration (fst sample) (snd sample) acc)
            samples sp.

(** What reaches the monitor: a sample of the loop, or a manual cooldown
    request ([trigger_cooldown]). *)
Inductive event : Type :=
| Sample (max_temp : Q)
| TriggerCooldown.

Definition apply_event (m : Thermal.ThermalMonitor) (e : event)
  : Thermal.ThermalMonitor :=
  match e with
  | Sample t => Thermal._update_state m t
  | TriggerCooldown => Thermal.trigger_cooldown m
  end.

Definition run_events (m : Thermal.ThermalMonitor) (events : list event)
  : Thermal.ThermalMonitor :=
  fold_left apply_event events m.






End Sampler.

(* ===================================================================== *)
(** * More of the store ([database/db.py]) *)
(* ===================================================================== *)

Module StoreOps.

(** [Database.clear_user_context], lines 174-186. *)
Definition clear_user_context (io : Store.store_io) (db : Store.Database)
    (user_id : string) : result Store.Database :=
  match Store.sio_fault io with
  | Some e => inl e
  | None =>
      inr (Store.mkDatabase
             (filter (fun r => Store.msg_user_id r <> user_id)
                     (Store.messages db))
             (Store.reminders db))
  end.

(** The timestamps of a retrieved context, oldest first. *)
Definition context_timestamps (ctx : list msg_dict) : list Z :=
  omap md_timestamp ctx.

End StoreOps.

(* ===================================================================== *)
(** * More of the transport ([orchestrator/ipc.py]) *)
(* ===================================================================== *)

Module TransportOps.

(** [os.remove(path)] guarded by [os.path.exists(path)]; a removal that
    fails ([stuck]) is logged and the file stays. *)
Definition remove_file (stuck : string -> bool) (fs : gmap string string)
    (path : string) : gmap string string :=
  match fs !! path with
  | Some _ => if stuck path then fs else delete path fs
  | None => fs
  end.

(** [IPCManager.shutdown], lines 235-251. *)
Definition shutdown (stuck : string -> bool) (m : Transport.IPCManager)
    (fs : gmap string string) : gmap string string :=
  fold_left (remove_file stuck) (Transport.all_paths m) fs.

End TransportOps.

(* ===================================================================== *)
(** * The worker side of the transport
      ([llm-service/inference.py], [asr-service/transcribe.py],
       [tts-service/server.py]) *)
(* ===================================================================== *)

Module Worker.

Section Loop.

Variables Data Reply : Type.

(** A decoded request as the worker reads it: each key may be absent. *)
Record worker_request : Type := mkWorkerRequest {
  wr_id : option nat;
  wr_method : option string;
  wr_data : option Data
}.

(** The [result] of a response: what the handler returned, or the answer
    to [health]. *)
Inductive worker_result : Type :=
| Handled (r : Reply)
| StatusOk.

(** The service: the one method it serves besides [health], its handler
    (which returns, or raises with a message), and the empty [data]. *)
Variable work_method : string.
Variable handle : Data -> string + Reply.
Variable no_data : Data.

(** [str(method)] *)
Definition str_method (method : option string) : string :=
  default "None" method.

(** [process_request] of the three services (LLM: lines 234-266). *)
Definition process_request (request : worker_request)
  : Transport.response worker_result :=
  let method := wr_method request in
  let data := default no_data (wr_data request) in
  let request_id := wr_id request in
  if decide (method = Some work_method) then
    match handle data with
    | inr r => Transport.mkResponse request_id None (Some (Handled r))
    | inl msg => Transport.mkResponse request_id (Some msg) None
    end
  else if decide (method = Some "health") then
    Transport.mkResponse request_id None (Some StatusOk)
  else
    Transport.mkResponse request_id
      (Some ("Unknown method: " ++ str_method method)) None.

(** The codec on the worker's side: [json.loads] of a request ([None] when
    the text is not a JSON object), and [json.dump] of a response with the
    text it wrote and whether it completed. *)
Variable loads_request : string -> option worker_request.
Variable dump_response : Transport.response worker_result -> string * bool.

(** The worker's loop variable [last_request_id]. *)
Record worker : Type := mkWorker { last_request_id : option nat }.

(** One turn of the loop of [run_ipc_loop] (LLM: lines 332-367) on the
    files [shm_input] and [shm_output]. *)
Definition worker_iteration (shm_input shm_output : string)
    (w : worker) (fs : gmap string string) : worker * gmap string string :=
  match fs !! shm_input with
  | Some request_json =>
      if (0 <? String.length request_json)%nat then
        match loads_request request_json with
        | Some request =>
            let request_id := wr_id request in
            if decide (request_id = last_request_id w) then (w, fs)
            else
              let response := process_request request in
              let '(text, written) := dump_response response in
              let fs1 := Transport.write_file fs shm_output text in
              if written then
                (mkWorker request_id,
                 Transport.write_file fs1 shm_input EmptyString)
              else (w, fs1)
        | None => (w, fs)
        end
      else (w, fs)
  | None => (w, fs)
  end.

Fixpoint worker_iterations (n : nat) (shm_input shm_output : string)
    (w : worker) (fs : gmap string string) : worker * gmap string string :=
  match n with
  | O => (w, fs)
  | S k =>
      let '(w', fs') := worker_iteration shm_input shm_output w fs in
      worker_iterations k shm_input shm_output w' fs'
  end.

(** The request as the worker decodes what the coordinator wrote. *)
Definition as_worker_request (q : Transport.request Data) : worker_request :=
  mkWorkerRequest (Some (Transport.req_id q)) (Some (Transport.req_method q))
                  (Some (Transport.req_data q)).

End Loop.

Arguments mkWorkerRequest {Data} wr_id wr_method wr_data.
Arguments wr_id {Data} w.
Arguments wr_method {Data} w.
Arguments wr_data {Data} w.
Arguments Handled {Reply} r.
Arguments StatusOk {Reply}.
Arguments process_request {Data Reply} work_method handle no_data request.
Arguments worker_iteration {Data Reply} work_method handle no_data
  loads_request dump_response shm_input shm_output w fs.
Arguments worker_iterations {Data Reply} work_method handle no_data
  loads_request dump_response n shm_input shm_output w fs.
Arguments as_worker_request {Data} q.

(** The system with the files as a worker left them. *)
Definition with_fs {Data Reply : Type} (s : Transport.system Data Reply)
    (files : gmap string string) : Transport.system Data Reply :=
  Transport.mkSystem (Transport.ipc s) files (Transport.locks s)
                     (Transport.calls s).

(** [TTSService._handle_synthesize], lines 265-296 of
    [tts-service/server.py], over the engine it calls. *)
Definition _handle_synthesize {Audio : Type}
    (synthesize : string -> string + Audio) (text : option string)
  : string + Audio :=
  let text := default EmptyString text in
  if decide (text = EmptyString)
  then inl "No text provided for synthesis"
  else synthesize text.

(** [LLMService._handle_generate], lines 268-297 of
    [llm-service/inference.py], over the engine it calls with the prompt
    and [max_tokens]. *)
Definition _handle_generate {Out : Type} (default_max_tokens : Z)
    (generate : string -> Z -> string + Out)
    (data : LLMService.generate_data) : string + Out :=
  let max_tokens := default default_max_tokens (LLMService.gd_max_tokens data) in
  generate (LLMService.engine_prompt data) max_tokens.

End Worker.

(* ===================================================================== *)
(** * More of the coordinator ([orchestrator/pipeline.py],
      [orchestrator/main.py]) *)
(* ===================================================================== *)

Module PipelineOps.

Import Pipeline.

(** [VoicePipeline.process_text_input], lines 343-415, on a pipeline whose
    transport exists ([initialize] has run).  There is no readiness check,
    no [try] block and no update of the metrics. *)
Definition process_text_input (env : Env) (text : string) (user_id : string)
    (session_id : option string) : M voice_result :=
  let now := env_time env in
  let session := default (env_uuid env) session_id in
  let timing0 : gmap string Q := ∅ in
  let start_time := now TPipelineStart in
  let! user_context := db_get_user_context (env_get_context env) user_id in
  let! st := gets psettings in
  let llm_start := now TLlmStart in
  let! llm_result :=
    call_service (env_llm env) Transport.llm "generate"
                 (llm_request_data st text user_context user_id) in
  let timing1 := <["llm" := py_round (now TLlmEnd - llm_start) 3]> timing0 in
  let response_text := default EmptyString (llm_text llm_result) in
  let function_calls := default [] (llm_function_calls llm_result) in
  match function_calls with
  | [] => ret tt
  | _ :: _ => _execute_function_calls env 0 function_calls user_id
  end >>
  db_add_message (env_add_user env) user_id "user" text >>
  db_add_message (env_add_assistant env) user_id "assistant" response_text >>
  let tts_start := now TTtsStart in
  let! tts_result :=
    call_service (env_tts env) Transport.tts "synthesize"
                 (TtsData response_text) in
  let timing2 := <["tts" := py_round (now TTtsEnd - tts_start) 3]> timing1 in
  let timing3 := <["total" := py_round (now TTotal - start_time) 3]> timing2 in
  ret (mkVoiceResult true text response_text ("/audio/" ++ session)
                     function_calls timing3 session).

(** [text_interact] of [main.py], lines 310-328. *)
Definition text_interact (env : Env) (text user_id : string)
    (session_id : option string) (s : VoicePipeline)
  : http_response * VoicePipeline :=
  match process_text_input env text user_id session_id s with
  | (inr r, s') => (VoiceResponse r, s')
  | (inl e, s') =>
      (HTTPException 500 ("Text interaction failed: " ++ str_exn e), s')
  end.

(** The keys of the ASR result that [transcribe_audio] reads. *)
Record transcribe_reply : Type := mkTranscribeReply {
  tr_text : option string;
  tr_confidence : option Q
}.

Record transcription_result : Type := mkTranscription {
  t_transcription : string;
  t_confidence : Q;
  t_timing : gmap string Q
}.

(** [VoicePipeline.transcribe_audio], lines 316-341. *)
Definition transcribe_audio (outcome : call_outcome transcribe_reply)
    (start_time end_time : Q) (audio_data : audio) : M transcription_result :=
  let! result :=
    call_service outcome Transport.asr "transcribe" (AsrData audio_data) in
  let elapsed := (end_time - start_time)%Q in
  ret (mkTranscription (default EmptyString (tr_text result))
                       (default 0%Q (tr_confidence result))
                       {[ "asr" := py_round elapsed 3 ]}).

(** Function-call arguments as they arrive from JSON: the due date is not
    a [datetime]. *)
Definition json_call (call : func_call) : Prop :=
  forall iso, default ∅ (fc_arguments call) !! "due_date" <> Some (PDatetime iso).

(** The three transport calls of one successful voice request. *)
Definition voice_calls (first_id : nat) (audio_data : audio) (st : PSettings)
    (transcription : string) (user_context : list msg_dict) (user_id : string)
    (response_text : string) : list ipc_call :=
  [ mkIpcCall first_id Transport.asr "transcribe" (AsrData audio_data);
    mkIpcCall (S first_id) Transport.llm "generate"
              (llm_request_data st transcription user_context user_id);
    mkIpcCall (S (S first_id)) Transport.tts "synthesize"
              (TtsData response_text) ].

(** A transport call without its id: service, method and data. *)
Definition call_shape (c : ipc_call) : Transport.service * string * ipc_data :=
  (call_service_name c, call_method c, call_data c).

(** The two turns step 5 appends. *)
Definition appended_turns (env : Env) (user_id transcription response_text : string)
  : list Store.message_row :=
  [ Store.mkMessage user_id None "user" transcription
      (Store.sio_now (env_add_user env));
    Store.mkMessage user_id None "assistant" response_text
      (Store.sio_now (env_add_assistant env)) ].

End PipelineOps.

(* ===================================================================== *)
(** * Concrete scenarios *)
(* ===================================================================== *)

Module Scenarios.

Import Store.

(** The two turns of one request, appended within one clock unit. *)
Definition user_turn : message_row := mkMessage "alice" None "user" "a" 1.
Definition assistant_turn : message_row :=
  mkMessage "alice" None "assistant" "b" 1.

Definition db_same_second : Database :=
  match add_message (io_ok 1) empty_db "alice" "user" "a" None with
  | inr d =>
      match add_message (io_ok 1) d "alice" "assistant" "b" None with
      | inr d' => d'
      | inl _ => d
      end
  | inl _ => empty_db
  end.


(** A response left in [asr_out] by an earlier run. *)
Definition dq : string := String (ascii_of_nat 34) EmptyString.

Definition stale_response : string :=
  "{" ++ dq ++ "id" ++ dq ++ ": 1, " ++ dq ++ "result" ++ dq ++ ": {}}".

Definition stale_fs : gmap string string :=
  {[ "/dev/shm/blackbox_asr_out" := stale_response ]}.

(** Two requests for transcription, with a codec that writes the id and
    the method and reads nothing back. *)
Definition toy_dumps (r : Transport.request string) : string :=
  String (ascii_of_nat (48 + Transport.req_id r)) EmptyString
  ++ ":" ++ Transport.req_method r.

Definition toy_loads (_ : string) : option (Transport.response string) := None.

Definition two_asr_calls : Transport.system string string :=
  Transport.fresh_system
    (Transport.new_manager Transport.default_settings) ∅
    [ (Transport.asr, "transcribe", "first");
      (Transport.asr, "transcribe", "second") ].

(** Both calls have entered; neither has polled. *)
Definition both_entered : Transport.system string string :=
  match Transport.run toy_dumps toy_loads
          [Transport.Enter 0; Transport.Enter 1] two_asr_calls with
  | Some s => s
  | None => two_asr_calls
  end.

(** The scenario of a spoken request: the workers answer, the LLM asks
    for a reminder with a JSON date and for a function nobody knows. *)
Definition reminder_call : Pipeline.func_call :=
  Pipeline.mkFuncCall (Some "set_reminder")
    (Some (<["title" := PStr "milk"]>
             (<["due_date" := PStr "2030-01-01T00:00:00Z"]> ∅))).

Definition unknown_call : Pipeline.func_call :=
  Pipeline.mkFuncCall (Some "launch_rocket") None.

Definition heard : Pipeline.asr_reply := Pipeline.mkAsrReply (Some "remind me").

Definition answered : Pipeline.llm_reply :=
  Pipeline.mkLlmReply (Some "Saved.") (Some [reminder_call; unknown_call])
                      (Some 1%Z).

Definition spoken : Pipeline.tts_reply := Pipeline.mkTtsReply (Some "UklGRg==").

Definition env_all_answer : Pipeline.Env :=
  Pipeline.mkEnv (fun _ => 0%Q) "session-1"
    (Pipeline.Replied heard) (Pipeline.Replied answered)
    (Pipeline.Replied spoken)
    (Store.io_ok 5) (fun _ => Store.io_ok 5) (Store.io_ok 5) (Store.io_ok 5).

(** As above, but the database refuses the first insert of step 5. *)
Definition env_store_down : Pipeline.Env :=
  Pipeline.mkEnv (fun _ => 0%Q) "session-2"
    (Pipeline.Replied heard) (Pipeline.Replied answered)
    (Pipeline.Replied spoken)
    (Store.io_ok 5) (fun _ => Store.io_ok 5)
    (Store.mkStoreIO (Some (SqliteError "disk I/O error")) 5) (Store.io_ok 5).

(** The ASR worker never answers. *)
Definition env_asr_silent : Pipeline.Env :=
  Pipeline.mkEnv (fun _ => 0%Q) "session-3"
    Pipeline.NoReply (Pipeline.Replied answered) (Pipeline.Replied spoken)
    (Store.io_ok 5) (fun _ => Store.io_ok 5) (Store.io_ok 5) (Store.io_ok 5).

Definition pipeline0 : Pipeline.VoicePipeline :=
  Pipeline.ready_pipeline Store.empty_db
    (Thermal.default_monitor Thermal.NORMAL) Pipeline.default_psettings 3.

(** One request that succeeds and one whose ASR stage times out. *)
Definition two_requests : list Pipeline.voice_request :=
  [ Pipeline.mkVoiceRequest env_all_answer (Pipeline.AudioText "UklGRg==")
      "alice" None;
    Pipeline.mkVoiceRequest env_asr_silent (Pipeline.AudioText "UklGRg==")
      "alice" None ].

(** A codec that reads the stale response back. *)
Definition stale_loads (text : string) : option (Transport.response string) :=
  if String.eqb text stale_response
  then Some (Transport.mkResponse (Some 1) None (Some "old answer"))
  else None.

(** A synthesis worker and its codec, with requests and responses written
    as short texts: the request text is the text to speak. *)
Definition speak (text : string) : string + string := inr ("wav:" ++ text).

Definition tts_handle (data : option string) : string + string :=
  Worker._handle_synthesize speak data.

Definition toy_dumps_tts (q : Transport.request (option string)) : string :=
  "say " ++ default EmptyString (Transport.req_data q).

Definition toy_loads_request (text : string)
  : option (Worker.worker_request (option string)) :=
  Some (Worker.mkWorkerRequest (Some 1) (Some "synthesize")
          (Some (Some (String.substring 4 (String.length text - 4) text)))).

Definition toy_dump_response
    (r : Transport.response (Worker.worker_result string)) : string * bool :=
  (match Transport.resp_result r with
   | Some (Worker.Handled audio) => "ok " ++ audio
   | _ => "failed"
   end, true).

Definition toy_loads_response (text : string)
  : option (Transport.response (Worker.worker_result string)) :=
  if String.prefix "ok " text
  then Some (Transport.mkResponse (Some 1) None
               (Some (Worker.Handled
                        (String.substring 3 (String.length text - 3) text))))
  else None.

Definition one_tts_call
  : Transport.system (option string) (Worker.worker_result string) :=
  Transport.fresh_system (Transport.new_manager Transport.default_settings) ∅
    [ (Transport.tts, "synthesize", Some "hello") ].

(** The coordinator after [__init__], before [initialize] has run. *)
Definition pipeline_unready : Pipeline.VoicePipeline :=
  Pipeline.mkPipeline Store.empty_db (Thermal.default_monitor Thermal.NORMAL)
    Pipeline.default_psettings 0 [] false Pipeline.initial_metrics [] [].

(** Two bytes of an upload. *)
Definition riff_bytes : list Byte.byte := [Byte.x52; Byte.x49].
End Scenarios.


(* ===================================================================== *)
(** * Properties *)
(* ===================================================================== *)

(** ** Comparisons on rationals *)

Lemma Qltb_lt x y : Qltb x y = true <-> (x < y)%Q.
Proof.
  unfold Qltb. rewrite negb_true_iff. split.
  - intros H. apply Qnot_le_lt. intros Hle.
    apply Qle_bool_iff in Hle. congruence.
  - intros H. destruct (Qle_bool y x) eqn:E; [|reflexivity].
    apply Qle_bool_iff in E. exfalso. exact (Qlt_not_le _ _ H E).
Qed.

Lemma Qgeb_le x y : Qgeb x y = true <-> (y <= x)%Q.
Proof. unfold Qgeb. apply Qle_bool_iff. Qed.

Lemma Qltb_ge x y : Qltb x y = false <-> (y <= x)%Q.
Proof. unfold Qltb. rewrite negb_false_iff. apply Qle_bool_iff. Qed.

Lemma Qgeb_lt x y : Qgeb x y = false <-> (x < y)%Q.
Proof.
  rewrite <- Qltb_lt. unfold Qltb, Qgeb.
  destruct (Qle_bool y x); simpl; split; congruence.
Qed.

(** ** Thermal monitor *)

Section ThermalFacts.

Import Thermal.

Lemma trigger_callbacks_state m s : state (_trigger_callbacks m s) = state m.
Proof. reflexivity. Qed.

(** Notifying callbacks never changes the state that was computed. *)
Lemma update_state_unfold m t :
  state (_update_state m t) =
  match state m with
  | COOLDOWN => if Qltb t (cooldown_temp m) then NORMAL else COOLDOWN
  | _ =>
      if Qgeb t (critical_temp m) then CRITICAL
      else if Qgeb t (warning_temp m) then WARNING else NORMAL
  end.
Proof.
  unfold _update_state.
  destruct (state m) eqn:Hs;
    repeat match goal with
           | |- context [if ?b then _ else _] => destruct b eqn:?
           end; simpl; try rewrite Hs; try reflexivity.
Qed.

(** Thresholds are configuration: no sample and no cooldown request
    changes them. *)
Lemma update_state_thresholds m t :
  warning_temp (_update_state m t) = warning_temp m /\
  critical_temp (_update_state m t) = critical_temp m /\
  cooldown_temp (_update_state m t) = cooldown_temp m.
Proof.
  unfold _update_state.
  destruct (state m);
    repeat match goal with
           | |- context [if ?b then _ else _] => destruct b
           end; simpl; auto.
Qed.

(** C1, as amended: with [warn < critical], one sample moves the monitor
    as follows.  From Cooldown: to Normal exactly when the reading is below
    the cooldown threshold, otherwise it stays in Cooldown.  From Normal,
    Warning and also from Critical: to Critical when the reading is at
    least [critical], to Warning when it lies in [[warn, critical)], to
    Normal when it is below [warn].  [trigger_cooldown] enters Cooldown
    from every state. *)
Theorem update_state_transitions (m : ThermalMonitor) (max_temp : Q) :
  (warning_temp m < critical_temp m)%Q ->
  (state m = COOLDOWN ->
     ((max_temp < cooldown_temp m)%Q <->
        state (_update_state m max_temp) = NORMAL) /\
     (~ (max_temp < cooldown_temp m)%Q ->
        state (_update_state m max_temp) = COOLDOWN)) /\
  (state m <> COOLDOWN ->
     ((critical_temp m <= max_temp)%Q ->
        state (_update_state m max_temp) = CRITICAL) /\
     ((warning_temp m <= max_temp)%Q -> (max_temp < critical_temp m)%Q ->
        state (_update_state m max_temp) = WARNING) /\
     ((max_temp < warning_temp m)%Q ->
        state (_update_state m max_temp) = NORMAL)) /\
  state (trigger_cooldown m) = COOLDOWN.
Proof.
  intros Hinv. rewrite update_state_unfold. repeat split.
  - intros Hlt. rewrite H. apply Qltb_lt in Hlt. now rewrite Hlt.
  - rewrite H. destruct (Qltb max_temp (cooldown_temp m)) eqn:E.
    + intros _. now apply Qltb_lt.
    + discriminate.
  - intros Hge. rewrite H.
    destruct (Qltb max_temp (cooldown_temp m)) eqn:E; [|reflexivity].
    apply Qltb_lt in E. contradiction.
  - intros Hge. apply Qgeb_le in Hge.
    destruct (state m); try congruence; now rewrite Hge.
  - intros Hw Hc. apply Qgeb_le in Hw. apply Qgeb_lt in Hc.
    destruct (state m); try congruence; now rewrite Hc, Hw.
  - intros Hw.
    assert (Hc : (max_temp < critical_temp m)%Q)
      by (eapply Qlt_trans; eassumption).
    apply Qgeb_lt in Hw. apply Qgeb_lt in Hc.
    destruct (state m); try congruence; now rewrite Hc, Hw.
Qed.

(** The amended transitions at the default thresholds, leaving Critical
    on a reading of 50 degrees. *)
Lemma update_state_transitions_witness :
  (75 < 85)%Q /\
  state (_update_state (default_monitor CRITICAL) 50) = NORMAL.
Proof.
  split; [reflexivity|].
  apply (update_state_transitions (default_monitor CRITICAL) 50);
    [reflexivity | discriminate | reflexivity].
Defined.

(** C1 as stated fails: a monitor in Critical that samples 50 degrees
    (thresholds 75 / 85 / 70) does not remain Critical, although
    [trigger_cooldown] was never called. *)
Lemma critical_is_not_sticky :
  state (default_monitor CRITICAL) = CRITICAL /\
  state (_update_state (default_monitor CRITICAL) 50) <> CRITICAL.
Proof. split; [reflexivity | vm_compute; discriminate]. Qed.

(** The scenario of the hysteresis property, sample by sample. *)
Example hysteresis_scenario :
  map (fun samples => state (run_samples (default_monitor COOLDOWN) samples))
      [ [69%Q]; [69%Q; 74%Q]; [69%Q; 74%Q; 75%Q]; [69%Q; 74%Q; 75%Q; 85%Q];
        [69%Q; 74%Q; 75%Q; 85%Q; 80%Q] ]
  = [NORMAL; NORMAL; WARNING; CRITICAL; WARNING].
Proof. vm_compute. reflexivity. Qed.

End ThermalFacts.

(** ** Context store *)

Section StoreFacts.

Import Store.
Import Scenarios.

Local Abbreviation newer_first :=
  (fun a b : message_row => (msg_timestamp b <= msg_timestamp a)%Z).

Lemma insert_desc_perm r placed : Permutation (r :: placed) (insert_desc r placed).
Proof.
  induction placed as [|x rest IH]; simpl; [reflexivity|].
  destruct (msg_timestamp x <? msg_timestamp r)%Z; [reflexivity|].
  rewrite perm_swap. now apply perm_skip.
Qed.

Lemma insert_desc_sorted r placed :
  StronglySorted newer_first placed ->
  StronglySorted newer_first (insert_desc r placed).
Proof.
  induction 1 as [|x rest Hs IH Hx]; simpl.
  - repeat constructor.
  - destruct (msg_timestamp x <? msg_timestamp r)%Z eqn:E.
    + apply Z.ltb_lt in E. constructor; [constructor; assumption|].
      constructor; [lia|].
      eapply Forall_impl; [exact Hx|]. simpl. intros y Hy. lia.
    + apply Z.ltb_ge in E. constructor; [exact IH|].
      eapply Permutation_Forall; [apply insert_desc_perm|].
      constructor; [exact E | exact Hx].
Qed.

Lemma place_all_admissible rows placed :
  StronglySorted newer_first placed ->
  Permutation (rows ++ placed)
    (fold_left (fun acc r => insert_desc r acc) rows placed) /\
  StronglySorted newer_first
    (fold_left (fun acc r => insert_desc r acc) rows placed).
Proof.
  revert placed. induction rows as [|r rows IH]; intros placed Hs; simpl.
  - split; [reflexivity | exact Hs].
  - destruct (IH (insert_desc r placed) (insert_desc_sorted r placed Hs))
      as [Hp Hsorted].
    split; [|exact Hsorted].
    rewrite <- Hp. rewrite <- insert_desc_perm.
    apply Permutation_middle.
Qed.

(** The evaluation order chosen for [ORDER BY timestamp DESC] is one of
    the orders SQL allows. *)
Lemma order_by_timestamp_desc_admissible rows :
  sql_order_by_timestamp_desc rows (order_by_timestamp_desc rows).
Proof.
  destruct (place_all_admissible rows [] (SSorted_nil _)) as [Hp Hs].
  split; [|exact Hs]. now rewrite app_nil_r in Hp.
Qed.

(** C6 at its failing input: after [add_message(alice, user, a)] and
    [add_message(alice, assistant, b)] with equal timestamps,
    [get_user_context(alice, 10)] lists the assistant turn before the user
    turn, so its last element is not the turn appended last; and the query
    alone admits both orders of the two rows. *)
Theorem get_user_context_reverses_ties :
  messages db_same_second = [user_turn; assistant_turn] /\
  get_user_context (io_ok 2) db_same_second "alice" 10
    = inr [row_dict assistant_turn; row_dict user_turn] /\
  last [row_dict assistant_turn; row_dict user_turn]
    <> Some (row_dict assistant_turn) /\
  sql_order_by_timestamp_desc (messages db_same_second)
    [user_turn; assistant_turn] /\
  sql_order_by_timestamp_desc (messages db_same_second)
    [assistant_turn; user_turn].
Proof.
  split; [reflexivity|]. split; [vm_compute; reflexivity|].
  split; [vm_compute; discriminate|].
  split; (split; [|repeat constructor; simpl; lia]).
  - reflexivity.
  - apply perm_swap.
Qed.

Local Abbreviation older_first :=
  (fun a b : message_row => (msg_timestamp a < msg_timestamp b)%Z).

Lemma insert_desc_newest r placed :
  Forall (fun p => (msg_timestamp p < msg_timestamp r)%Z) placed ->
  insert_desc r placed = r :: placed.
Proof.
  destruct 1 as [|x rest Hx _]; [reflexivity|]. simpl.
  apply Z.ltb_lt in Hx. now rewrite Hx.
Qed.

Lemma place_all_increasing rows placed :
  StronglySorted older_first rows ->
  Forall (fun p => Forall (older_first p) rows) placed ->
  fold_left (fun acc r => insert_desc r acc) rows placed
  = (rev rows ++ placed)%list.
Proof.
  revert placed. induction rows as [|r rows IH]; intros placed Hs Hp;
    [reflexivity|].
  apply StronglySorted_inv in Hs as [Hs Hr]. simpl.
  rewrite insert_desc_newest.
  - rewrite IH; [now rewrite <- app_assoc | exact Hs |].
    constructor; [exact Hr|].
    eapply Forall_impl; [exact Hp|]. simpl. intros p Hpr.
    now inversion Hpr.
  - eapply Forall_impl; [exact Hp|]. simpl. intros p Hpr.
    now inversion Hpr.
Qed.

(** Without ties the query is determined: newest first. *)
Lemma order_by_timestamp_desc_increasing rows :
  StronglySorted older_first rows ->
  order_by_timestamp_desc rows = rev rows.
Proof.
  intros Hs. unfold order_by_timestamp_desc.
  rewrite place_all_increasing; [apply app_nil_r | exact Hs | constructor].
Qed.

(** Where the timestamps of a user's turns strictly increase,
    [get_user_context] returns the newest [k] turns, oldest first, ending
    with the turn appended last. *)
Lemma get_user_context_without_ties io db user_id (k : nat) :
  sio_fault io = None ->
  StronglySorted older_first (where_user user_id (messages db)) ->
  get_user_context io db user_id (Z.of_nat k)
  = inr (map row_dict (last_n k (where_user user_id (messages db)))).
Proof.
  intros Hio Hs. unfold get_user_context, select_context, sql_limit.
  rewrite Hio. destruct (Z.of_nat k <? 0)%Z eqn:E; [apply Z.ltb_lt in E; lia|].
  rewrite Nat2Z.id, (order_by_timestamp_desc_increasing _ Hs).
  rewrite firstn_rev, rev_involutive. reflexivity.
Qed.

(** When timestamps differ the order is the order of insertion: two turns
    appended at clock readings 1 and 2 come back oldest first. *)
Example get_user_context_distinct_timestamps :
  forall d1 d2,
    add_message (io_ok 1) empty_db "alice" "user" "a" None = inr d1 ->
    add_message (io_ok 2) d1 "alice" "assistant" "b" None = inr d2 ->
    get_user_context (io_ok 3) d2 "alice" 10
    = inr [mkMsgDict (Some "user") (Some "a") (Some 1%Z);
           mkMsgDict (Some "assistant") (Some "b") (Some 2%Z)].
Proof.
  intros d1 d2 H1 H2. vm_compute in H1. injection H1 as <-.
  vm_compute in H2. injection H2 as <-. vm_compute. reflexivity.
Qed.

End StoreFacts.

(** ** Transport: initialisation *)

Section TransportInit.

Import Transport.
Import Scenarios.

Lemma fold_touch_lookup paths (files : gmap string string) p :
  fold_left touch paths files !! p =
  match files !! p with
  | Some c => Some c
  | None => if decide (p ∈ paths) then Some EmptyString else None
  end.
Proof.
  revert files. induction paths as [|q paths IH]; intros files; simpl.
  - destruct (files !! p); [reflexivity|].
    destruct (decide (p ∈ [])) as [H|H]; [inversion H | reflexivity].
  - rewrite IH. unfold touch.
    destruct (files !! q) eqn:Hq.
    + destruct (files !! p) eqn:Hp; [reflexivity|].
      destruct (decide (p ∈ paths)) as [H|H];
        destruct (decide (p ∈ q :: paths)) as [H'|H']; try reflexivity.
      * exfalso. apply H'. now right.
      * apply elem_of_cons in H' as [->|H']; [congruence | contradiction].
    + destruct (decide (q = p)) as [->|Hne].
      * rewrite lookup_insert_eq, Hq.
        destruct (decide (p ∈ p :: paths)) as [H|H]; [reflexivity|].
        exfalso. apply H. now left.
      * rewrite lookup_insert_ne by exact Hne.
        destruct (files !! p); [reflexivity|].
        destruct (decide (p ∈ paths)) as [H|H];
          destruct (decide (p ∈ q :: paths)) as [H'|H']; try reflexivity.
        -- exfalso. apply H'. now right.
        -- apply elem_of_cons in H' as [->|H']; [congruence | contradiction].
Qed.

(** After [initialize] each of the six files exists. *)
Lemma initialize_creates m (files : gmap string string) p :
  p ∈ all_paths m -> is_Some (initialize m files !! p).
Proof.
  intros Hp. unfold initialize. rewrite fold_touch_lookup.
  destruct (files !! p); [eauto|].
  destruct (decide (p ∈ all_paths m)); [eauto | contradiction].
Qed.

(** A file that was missing is created empty. *)
Lemma initialize_missing_empty m (files : gmap string string) p :
  p ∈ all_paths m -> files !! p = None ->
  initialize m files !! p = Some EmptyString.
Proof.
  intros Hp Hnone. unfold initialize. rewrite fold_touch_lookup, Hnone.
  destruct (decide (p ∈ all_paths m)); [reflexivity | contradiction].
Qed.

(** A file that was there keeps what it held. *)
Lemma initialize_keeps_content m (files : gmap string string) p c :
  files !! p = Some c -> initialize m files !! p = Some c.
Proof.
  intros H. unfold initialize. now rewrite fold_touch_lookup, H.
Qed.

Lemma initialize_idempotent m (files : gmap string string) :
  initialize m (initialize m files) = initialize m files.
Proof.
  apply map_eq. intros p. unfold initialize at 1.
  rewrite fold_touch_lookup.
  destruct (initialize m files !! p) eqn:E; [reflexivity|].
  destruct (decide (p ∈ all_paths m)) as [H|H]; [|reflexivity].
  destruct (initialize_creates m files p H) as [c Hc]. congruence.
Qed.

(** Ids are handed out in sequence after the current counter;
    [initialize] has no access to the counter. *)
Lemma next_ids_seq n m : next_ids n m = seq (S (_request_id m)) n.
Proof.
  revert m. induction n as [|n IH]; intros m; simpl; [reflexivity|].
  f_equal. now rewrite IH.
Qed.

(** C5 at its failing input: with a response of an earlier run left in
    [asr_out], [initialize] - once or twice - leaves that file as it was,
    not empty, and the first id handed out afterwards is 1, the id of the
    stale response. *)
Theorem initialize_keeps_stale_response :
  let m := new_manager default_settings in
  output_path m asr ∈ all_paths m /\
  initialize m stale_fs !! output_path m asr = Some stale_response /\
  initialize m (initialize m stale_fs) !! output_path m asr
    = Some stale_response /\
  stale_response <> EmptyString /\
  next_ids 3 m = [1; 2; 3].
Proof.
  cbv zeta. split; [vm_compute; set_solver|].
  split; [apply initialize_keeps_content; reflexivity|].
  split; [rewrite initialize_idempotent;
          apply initialize_keeps_content; reflexivity|].
  split; [discriminate | reflexivity].
Qed.

End TransportInit.

(** ** Transport: concurrent calls *)

Section TransportCalls.

Import Transport.

Context {Data Reply : Type}.
Variable dumps : request Data -> string.
Variable loads : string -> option (response Reply).

Local Abbreviation system := (system Data Reply).
Local Abbreviation call := (call Data Reply).

(** A lock that was just created is free: taking it succeeds. *)
Lemma acquire_new_lock (held : list bool) :
  acquire (fst (new_lock held)) (snd (new_lock held))
  = Some (held ++ [true])%list.
Proof.
  unfold acquire, new_lock. simpl.
  rewrite lookup_app_r by lia.
  rewrite Nat.sub_diag. simpl.
  rewrite insert_app_r_alt by lia. now rewrite Nat.sub_diag.
Qed.

Lemma enter_succeeds (c : call) (s : system) :
  enter dumps c s =
  Some (set_pc c (Waiting (S (_request_id (ipc s)))),
        mkSystem (mkIPC (settings (ipc s)) (S (_request_id (ipc s))))
          (write_file (fs s) (input_path (ipc s) (c_service c))
             (dumps (mkRequest (S (_request_id (ipc s)))
                               (c_method c) (c_data c))))
          (locks s ++ [false]) (calls s)).
Proof.
  unfold enter. simpl.
  pose proof (acquire_new_lock (locks s)) as Hacq. simpl in Hacq.
  rewrite Hacq. unfold release.
  rewrite insert_app_r_alt by lia. rewrite Nat.sub_diag. reflexivity.
Qed.

(** A call that has not started can always start, whatever the other
    calls are doing. *)
Lemma enter_always_enabled (s : system) i (c : call) :
  calls s !! i = Some c -> c_pc c = Ready ->
  is_Some (step dumps loads (Enter i) s).
Proof.
  intros Hi Hpc. simpl. rewrite Hi, Hpc, enter_succeeds. eauto.
Qed.


Lemma lookup_replace (l : list call) i (c c' x : call) k :
  l !! i = Some c -> <[i := c']> l !! k = Some x ->
  (k = i /\ x = c') \/ (k <> i /\ l !! k = Some x).
Proof.
  intros Hi Hk. destruct (decide (k = i)) as [->|Hne].
  - left. split; [reflexivity|].
    rewrite list_lookup_insert_eq in Hk by (eapply lookup_lt_Some; eassumption).
    congruence.
  - right. split; [exact Hne|].
    now rewrite list_lookup_insert_ne in Hk by congruence.
Qed.

(** Replacing a call by one with the same id, method and data, while the
    input files stay as they are, keeps the invariant. *)
Lemma replace_call_invariant lo st0 fs0 (s : system) i (c c' : call) files :
  call_invariant dumps lo st0 fs0 s ->
  calls s !! i = Some c ->
  call_id c' = call_id c -> c_method c' = c_method c -> c_data c' = c_data c ->
  (paths_apart (ipc s) ->
   forall sv, files !! input_path (ipc s) sv = fs s !! input_path (ipc s) sv) ->
  call_invariant dumps lo st0 fs0
    (mkSystem (ipc s) files (locks s) (<[i := c']> (calls s))).
Proof.
  intros (Hst & Hlo & Hd & Hb & Hw) Hi Hid Hm Hdata Hfiles.
  assert (Hold : forall k x n,
             <[i := c']> (calls s) !! k = Some x -> call_id x = Some n ->
             exists y, calls s !! k = Some y /\ call_id y = Some n /\
                       c_method y = c_method x /\ c_data y = c_data x).
  { intros k x n Hk Hn.
    destruct (lookup_replace _ _ _ _ _ _ Hi Hk) as [[-> ->]|[_ Hk']].
    - exists c. repeat split; congruence.
    - exists x. repeat split; assumption. }
  repeat split; simpl; try assumption.
  - intros a b ca cb n Ha Hb' Hna Hnb.
    destruct (Hold _ _ _ Ha Hna) as (ya & Hya & Hyna & _).
    destruct (Hold _ _ _ Hb' Hnb) as (yb & Hyb & Hynb & _).
    exact (Hd _ _ _ _ _ Hya Hyb Hyna Hynb).
  - destruct (Hold _ _ _ H H0) as (y & Hy & Hyn & _).
    destruct (Hb _ _ _ Hy Hyn). assumption.
  - destruct (Hold _ _ _ H H0) as (y & Hy & Hyn & _).
    destruct (Hb _ _ _ Hy Hyn). assumption.
  - intros Hapart sv. unfold input_whole. simpl.
    rewrite (Hfiles Hapart sv).
    destruct (Hw Hapart sv) as [H|[H|(k & x & n & Hk & Hn & Hf)]];
      [left; exact H | right; left; exact H | right; right].
    destruct (decide (k = i)) as [->|Hne].
    + exists i, c', n. split.
      * apply list_lookup_insert_eq. eapply lookup_lt_Some; eassumption.
      * assert (x = c) by congruence. subst x.
        split; [congruence|]. now rewrite Hm, Hdata.
    + exists k, x, n. split; [|split; assumption].
      now rewrite list_lookup_insert_ne by congruence.
Qed.

Lemma step_invariant lo st0 fs0 a (s s' : system) :
  call_invariant dumps lo st0 fs0 s ->
  step dumps loads a s = Some s' ->
  call_invariant dumps lo st0 fs0 s'.
Proof.
  intros Hinv Hstep. destruct a as [i|i|i|sv content|sv]; simpl in Hstep.
  - (* Enter *)
    destruct (calls s !! i) as [c|] eqn:Hi; [|discriminate].
    destruct (c_pc c) eqn:Hpc; try discriminate.
    rewrite enter_succeeds in Hstep. injection Hstep as <-.
    destruct Hinv as (Hst & Hlo & Hd & Hb & Hw).
    assert (Hold : forall k x n,
               <[i := set_pc c (Waiting (S (_request_id (ipc s))))]> (calls s)
                 !! k = Some x ->
               call_id x = Some n ->
               (k = i /\ n = S (_request_id (ipc s))) \/
               (k <> i /\ calls s !! k = Some x /\
                lo < n <= _request_id (ipc s))).
    { intros k x n Hk Hn.
      destruct (lookup_replace _ _ _ _ _ _ Hi Hk) as [[-> ->]|[Hne Hk']].
      - left. unfold call_id, set_pc in Hn. simpl in Hn.
        split; [reflexivity | congruence].
      - right. repeat split; try assumption; eapply Hb; eassumption. }
    unfold put_call. repeat split; simpl; try assumption; try lia.
    + intros a b ca cb n Ha Hb' Hna Hnb.
      destruct (Hold _ _ _ Ha Hna) as [[-> Ea]|(Hnea & Hka & Hra)];
        destruct (Hold _ _ _ Hb' Hnb) as [[-> Eb]|(Hneb & Hkb & Hrb)];
        try reflexivity; try lia.
      exact (Hd _ _ _ _ _ Hka Hkb Hna Hnb).
    + destruct (Hold _ _ _ H H0) as [[_ ->]|(_ & _ & Hr)]; lia.
    + destruct (Hold _ _ _ H H0) as [[_ ->]|(_ & _ & Hr)]; lia.
    + intros Hapart sv. unfold input_whole, write_file. simpl.
      change (input_path {| settings := settings (ipc s);
                            _request_id := S (_request_id (ipc s)) |})
        with (input_path (ipc s)).
      destruct (decide (input_path (ipc s) (c_service c)
                        = input_path (ipc s) sv)) as [E|E].
      * right; right. exists i, (set_pc c (Waiting (S (_request_id (ipc s))))),
          (S (_request_id (ipc s))).
        split; [apply list_lookup_insert_eq; eapply lookup_lt_Some; eassumption|].
        split; [reflexivity|]. rewrite E. apply lookup_insert_eq.
      * rewrite lookup_insert_ne by exact E.
        destruct (Hw Hapart sv) as [H|[H|(k & x & n & Hk & Hn & Hf)]];
          [left; exact H | right; left; exact H | right; right].
        exists k, x, n. split; [|split; assumption].
        rewrite list_lookup_insert_ne; [exact Hk|].
        intros ->. assert (x = c) by congruence. subst x.
        unfold call_id in Hn. rewrite Hpc in Hn. discriminate.
  - (* Poll *)
    destruct (calls s !! i) as [c|] eqn:Hi; [|discriminate].
    destruct (c_pc c) eqn:Hpc; try discriminate.
    assert (Hc : call_id c = Some request_id)
      by (unfold call_id; now rewrite Hpc).
    assert (Hcomplete : forall r,
               call_id (complete c request_id r) = Some request_id /\
               c_method (complete c request_id r) = c_method c /\
               c_data (complete c request_id r) = c_data c).
    { intros r. unfold complete. destruct (resp_error r); repeat split. }
    unfold poll in Hstep.
    destruct (fs s !! output_path (ipc s) (c_service c)) as [json|] eqn:Hout;
      [destruct (0 <? String.length json)%nat;
       [destruct (loads json) as [r|];
        [destruct (decide (resp_id r = Some request_id))|]|]|];
      injection Hstep as <-; unfold put_call; simpl;
      try (destruct s; simpl in *;
           eapply (replace_call_invariant _ _ _ _ _ _ _ _ Hinv Hi);
           simpl; congruence).
    destruct (Hcomplete r) as (H1 & H2 & H3).
    eapply (replace_call_invariant _ _ _ s _ _ _ _ Hinv Hi); try congruence.
    intros Hapart sv. unfold write_file.
    apply lookup_insert_ne. intros E. exact (Hapart _ _ (eq_sym E)).
  - (* Expire *)
    destruct (calls s !! i) as [c|] eqn:Hi; [|discriminate].
    destruct (c_pc c) eqn:Hpc; try discriminate.
    injection Hstep as <-. unfold put_call.
    eapply (replace_call_invariant _ _ _ s _ _ _ _ Hinv Hi);
      try reflexivity.
    unfold call_id. simpl. now rewrite Hpc.
  - (* WorkerRespond *)
    injection Hstep as <-.
    destruct Hinv as (Hst & Hlo & Hd & Hb & Hw).
    repeat split; simpl; try assumption;
      try (eapply Hb; eassumption).
    intros Hapart sv'. unfold input_whole, write_file. simpl.
    rewrite lookup_insert_ne
      by (intros E; exact (Hapart _ _ (eq_sym E))).
    exact (Hw Hapart sv').
  - (* WorkerClear *)
    injection Hstep as <-.
    destruct Hinv as (Hst & Hlo & Hd & Hb & Hw).
    repeat split; simpl; try assumption;
      try (eapply Hb; eassumption).
    intros Hapart sv'. unfold input_whole, write_file. simpl.
    destruct (decide (input_path (ipc s) sv = input_path (ipc s) sv'))
      as [E|E].
    + right; left. rewrite E. apply lookup_insert_eq.
    + rewrite lookup_insert_ne by exact E. exact (Hw Hapart sv').
Qed.

Lemma run_invariant lo st0 fs0 schedule (s s' : system) :
  call_invariant dumps lo st0 fs0 s ->
  run dumps loads schedule s = Some s' ->
  call_invariant dumps lo st0 fs0 s'.
Proof.
  revert s. induction schedule as [|a rest IH]; intros s Hinv Hrun;
    simpl in Hrun.
  - now injection Hrun as <-.
  - destruct (step dumps loads a s) as [s1|] eqn:Hstep; [|discriminate].
    eapply IH; [|exact Hrun]. eapply step_invariant; eassumption.
Qed.

Lemma fresh_system_invariant m fs0 pending :
  call_invariant dumps (_request_id m) (settings m) fs0
    (fresh_system (Reply := Reply) m fs0 pending).
Proof.
  assert (Hready : forall i (c : call) n,
             calls (fresh_system m fs0 pending) !! i = Some c ->
             call_id c = Some n -> False).
  { intros i c n Hi Hn. simpl in Hi. rewrite list_lookup_fmap in Hi.
    destruct (pending !! i); simpl in Hi; [|discriminate].
    injection Hi as <-. discriminate. }
  repeat split; simpl; try lia.
  - intros i j ci cj n Hi _ Hn _. destruct (Hready _ _ _ Hi Hn).
  - destruct (Hready _ _ _ H H0).
  - destruct (Hready _ _ _ H H0).
  - intros _ sv. left. reflexivity.
Qed.

End TransportCalls.

Section TransportOutstanding.

Import Transport.
Import Scenarios.

(** C9, as amended: calls to one service are not serialised.  In every
    state reachable from a start in which no call has entered, the calls
    that have entered carry pairwise distinct ids, all handed out after the
    start; a call that has not entered can enter at once, whatever calls to
    the same service are outstanding; and (input and output paths being
    different files) each input file is as at the start, empty, or holds
    the complete request of one call that has entered. *)
Theorem calls_distinct_ids_no_serialization
    {Data Reply : Type} (dumps : request Data -> string)
    (loads : string -> option (response Reply))
    (m : IPCManager) (fs0 : gmap string string)
    (pending : list (service * string * Data))
    (schedule : list action) (s : system Data Reply) :
  run dumps loads schedule (fresh_system m fs0 pending) = Some s ->
  ids_distinct s /\
  ids_bounded (_request_id m) s /\
  (forall i c, calls s !! i = Some c -> c_pc c = Ready ->
               is_Some (step dumps loads (Enter i) s)) /\
  (paths_apart m -> forall sv, input_whole dumps fs0 s sv).
Proof.
  intros Hrun.
  destruct (run_invariant dumps loads _ _ _ _ _ _
              (fresh_system_invariant dumps m fs0 pending) Hrun)
    as (Hst & _ & Hd & Hb & Hw).
  split; [exact Hd|]. split; [exact Hb|].
  split; [intros i c; apply enter_always_enabled|].
  intros Hapart. apply Hw. intros a b.
  specialize (Hapart a b). unfold input_path, output_path in *.
  now rewrite Hst.
Qed.

(** The amended statement at the two transcription requests, after both
    have entered. *)
Lemma calls_distinct_ids_no_serialization_witness :
  run toy_dumps toy_loads [Enter 0; Enter 1] two_asr_calls
    = Some both_entered /\
  ids_distinct both_entered.
Proof.
  split; [vm_compute; reflexivity|].
  apply (calls_distinct_ids_no_serialization toy_dumps toy_loads
           (new_manager default_settings) ∅
           [ (asr, "transcribe", "first"); (asr, "transcribe", "second") ]
           [Enter 0; Enter 1] both_entered).
  vm_compute; reflexivity.
Defined.

(** C9 as stated fails: two calls to [asr] enter one after the other and
    are outstanding together; the second request has replaced the first
    in [asr_in]. *)
Lemma two_calls_outstanding_together :
  ~ serialized toy_dumps toy_loads two_asr_calls.
Proof.
  intros H.
  apply (H [Enter 0; Enter 1] both_entered 0 1
           (mkCall asr "transcribe" "first" (Waiting 1))
           (mkCall asr "transcribe" "second" (Waiting 2))).
  - vm_compute; reflexivity.
  - lia.
  - reflexivity.
  - reflexivity.
  - reflexivity.
  - split; reflexivity.
Qed.

Example second_request_overwrites_first :
  fs both_entered !! "/dev/shm/blackbox_asr_in" = Some "2:transcribe".
Proof. vm_compute. reflexivity. Qed.

End TransportOutstanding.

(** ** Pipeline coordinator *)

Section PipelineFacts.

Import Pipeline.
Import Scenarios.

(** Unfolds the exception-and-state combinators. *)
Ltac unmonad :=
  unfold bind, try_except, ret, raise, gets, modify, when, logger,
         db_create_reminder, db_add_message, db_get_user_context,
         lift_store in *.



(** The loop returns normally for every list of calls, and touches
    nothing but the reminders and the log. *)
Lemma execute_function_calls_frame env k calls user_id s :
  exists d lg,
    _execute_function_calls env k calls user_id s
    = (inr tt,
       mkPipeline d (thermal_monitor s) (psettings s) (ipc_request_id s)
                  (ipc_calls s) (_ready s) (_metrics s) (_latencies s)
                  (log s ++ lg)) /\
    Store.messages d = Store.messages (database s).
Proof.
  revert k s. induction calls as [|call rest IH]; intros k s.
  - exists (database s), []. rewrite app_nil_r. destruct s; split; reflexivity.
  - assert (Hlog : forall rcd,
               exists d lg,
                 _execute_function_calls env (S k) rest user_id (add_log rcd s)
                 = (inr tt,
                    mkPipeline d (thermal_monitor s) (psettings s)
                      (ipc_request_id s) (ipc_calls s) (_ready s)
                      (_metrics s) (_latencies s) (log s ++ lg)) /\
                 Store.messages d = Store.messages (database s)).
    { intros rcd. destruct (IH (S k) (add_log rcd s)) as (d & lg & Heq & Hd).
      exists d, (rcd :: lg). split; [|exact Hd].
      rewrite Heq. simpl. now rewrite <- app_assoc. }
    simpl. unmonad.
    destruct (decide (fc_name call = Some "set_reminder")) as [E1|E1].
    + unmonad.
      destruct (Store.create_reminder _ _ _ _) as [e|[rid d']] eqn:Hc.
      * apply Hlog.
      * destruct (IH (S k) (set_database d' s)) as (d & lg & Heq & Hd).
        exists d, lg. split; [exact Heq|]. rewrite Hd. simpl.
        unfold Store.create_reminder in Hc.
        destruct (Store.bind_create_reminder _) as [|[[[t du] de] rc]];
          [discriminate|].
        destruct (Store.isoformat du); [discriminate|].
        destruct (_ && _); [|discriminate].
        destruct (Store.sio_fault _); [discriminate|].
        injection Hc as _ <-. reflexivity.
    + destruct (decide (fc_name call = Some "access_vault")) as [E2|E2];
        [apply IH|].
      destruct (decide (fc_name call = Some "play_media")) as [E3|E3];
        [apply IH|].
      apply Hlog.
Qed.




(** Step 4 returns normally and touches nothing but the reminders and the
    log; the timing map it returns keeps every entry it was given. *)
Lemma step_function_calls_frame env calls user_id (tm : gmap string Q) s :
  exists d lg tm',
    step_function_calls env calls user_id tm s
    = (inr tm',
       mkPipeline d (thermal_monitor s) (psettings s) (ipc_request_id s)
                  (ipc_calls s) (_ready s) (_metrics s) (_latencies s)
                  (log s ++ lg)) /\
    Store.messages d = Store.messages (database s) /\
    (forall k, is_Some (tm !! k) -> is_Some (tm' !! k)).
Proof.
  unfold step_function_calls. destruct calls as [|call rest].
  - exists (database s), [], tm. rewrite app_nil_r.
    destruct s; repeat split; auto.
  - unmonad.
    destruct (execute_function_calls_frame env 0 (call :: rest) user_id s)
      as (d & lg & -> & Hd).
    exists d, lg. eexists. split; [reflexivity|]. split; [exact Hd|].
    intros k Hk. destruct (decide ("function_execution" = k)) as [<-|Hne].
    + rewrite lookup_insert_eq. eauto.
    + now rewrite lookup_insert_ne.
Qed.

Local Opaque _execute_function_calls py_round Store.select_context.

Lemma is_Some_insert_same (tm : gmap string Q) k x :
  is_Some (<[k := x]> tm !! k).
Proof. rewrite lookup_insert_eq. eauto. Qed.

Lemma is_Some_insert_keep (tm : gmap string Q) j k x :
  is_Some (tm !! k) -> is_Some (<[j := x]> tm !! k).
Proof.
  intros H. destruct (decide (j = k)) as [->|Hne].
  - apply is_Some_insert_same.
  - now rewrite lookup_insert_ne.
Qed.

(** The counters after the loop over the components. *)
Lemma update_component_counters tm m component :
  total_requests (update_component tm m component) = total_requests m /\
  successful_requests (update_component tm m component)
    = successful_requests m /\
  failed_requests (update_component tm m component) = failed_requests m.
Proof.
  unfold update_component, set_component_average.
  destruct (tm !! component); [|auto].
  destruct (Qeq_bool _ 0);
    destruct (decide (component = "asr"));
    try destruct (decide (component = "llm")); simpl; auto.
Qed.

Lemma update_metrics_effect tm s :
  exists m lat,
    _update_metrics tm s = (inr tt, set_metrics m lat s) /\
    total_requests m = S (total_requests (_metrics s)) /\
    successful_requests m = S (successful_requests (_metrics s)) /\
    failed_requests m = failed_requests (_metrics s).
Proof.
  unfold _update_metrics, modify. eexists _, _. split; [reflexivity|].
  cbn [fold_left].
  repeat match goal with
         | |- context [update_component ?t ?m ?c] =>
             let H := fresh in
             destruct (update_component_counters t m c) as (-> & -> & ->)
         end.
  simpl. auto.
Qed.

Local Opaque _update_metrics.

(** Steps 5 to 7, whatever happens in them: the pipeline stays ready; a
    result carries the seven stage entries on top of those it was given and
    counts as one more successful request; a failure leaves the metrics and
    the latencies as they were. *)
Lemma steps_context_tts_totals_summary env st user_id session
    pipeline_start asr_time llm_time transcription reply calls
    (tm : gmap string Q) s :
  let out :=
    steps_context_tts_totals env st user_id session pipeline_start asr_time
      llm_time transcription reply calls tm s in
  _ready (snd out) = _ready s /\
  match fst out with
  | inr v =>
      success v = true /\
      (forall k,
         k ∈ ["context_update"; "tts"; "total"; "orchestration_overhead"] \/
         is_Some (tm !! k) -> is_Some (timing v !! k)) /\
      total_requests (_metrics (snd out)) = S (total_requests (_metrics s)) /\
      successful_requests (_metrics (snd out))
        = S (successful_requests (_metrics s)) /\
      failed_requests (_metrics (snd out)) = failed_requests (_metrics s)
  | inl _ =>
      _metrics (snd out) = _metrics s /\ _latencies (snd out) = _latencies s
  end.
Proof.
  cbv zeta. unfold steps_context_tts_totals, call_service. unmonad.
  unfold Store.add_message.
  destruct (Store.sio_fault (env_add_user env)); simpl; [auto|].
  destruct (Store.sio_fault (env_add_assistant env)); simpl; [auto|].
  destruct (env_tts env); simpl; auto.
  destruct (Qltb _ _); simpl;
    match goal with
    | |- context [_update_metrics ?t ?st] =>
        destruct (update_metrics_effect t st) as (m & lat & -> & Ht & Hs & Hf)
    end; simpl in *;
    (split; [reflexivity|]); (split; [reflexivity|]);
    (split; [|auto]);
    (intros k [Hk|Hk];
     [repeat (apply elem_of_cons in Hk as [->|Hk];
              [eauto 6 using is_Some_insert_same, is_Some_insert_keep|]);
      apply elem_of_nil in Hk; contradiction
     |eauto 6 using is_Some_insert_keep]).
Qed.

(** Steps 5 to 7 when the store refuses one of the two inserts: the
    exception of the store comes out, no transport call is issued and
    nothing is logged. *)
Lemma steps_context_tts_totals_store_failure env st user_id session
    pipeline_start asr_time llm_time transcription reply calls
    (tm : gmap string Q) s e :
  Store.sio_fault (env_add_user env) = Some e \/
  (Store.sio_fault (env_add_user env) = None /\
   Store.sio_fault (env_add_assistant env) = Some e) ->
  let out :=
    steps_context_tts_totals env st user_id session pipeline_start asr_time
      llm_time transcription reply calls tm s in
  fst out = inl e /\
  ipc_calls (snd out) = ipc_calls s /\
  log (snd out) = log s /\
  _metrics (snd out) = _metrics s.
Proof.
  cbv zeta. unfold steps_context_tts_totals, call_service. unmonad.
  unfold Store.add_message.
  intros [Hu|[Hu Ha]]; rewrite Hu; simpl; [auto|].
  rewrite Ha. simpl. auto.
Qed.



Local Opaque steps_context_tts_totals step_function_calls.

(** Replaces step 4 by its frame. *)
Ltac frame_step_4 :=
  match goal with
  | |- context [step_function_calls ?e ?c ?u ?t ?st] =>
      let d := fresh "d" in
      let lg := fresh "lg" in
      let tm := fresh "tm" in
      let Heq := fresh "Heq" in
      let Hd := fresh "Hd" in
      let Htm := fresh "Htm" in
      destruct (step_function_calls_frame e c u t st)
        as (d & lg & tm & Heq & Hd & Htm);
      rewrite Heq; simpl in Hd |- *
  end.

(** Decides membership in a short explicit list of calls or records. *)
Ltac in_explicit_list H :=
  repeat (apply elem_of_cons in H as [->|H]; [simpl; try discriminate; try reflexivity|]);
  try (apply elem_of_nil in H; contradiction).

(** Closes one failing path of the pipeline. *)
Ltac failed_path :=
  simpl; repeat rewrite <- app_assoc; simpl;
  repeat match goal with
         | |- _ /\ _ => split
         | |- exists _, (_ ++ _)%list = (_ ++ _)%list /\ _ =>
             eexists; split; [reflexivity|]
         | |- forall _, _ ∈ _ -> _ => let c := fresh in let H := fresh in
                                     intros c H; in_explicit_list H
         | |- _ => reflexivity
         end.

(** C7: when the ASR call or the LLM call does not come back with a
    result (timeout, failed write, worker error), a ready pipeline fails
    the request, the store is as before (no turn appended, no reminder
    created), the transport calls it issued do not include a TTS call, no
    function call was handled, and the failure is counted. *)
Theorem asr_or_llm_failure_has_no_side_effect
    (env : Env) (audio_data : audio) (user_id : string)
    (session_id : option string) (s : VoicePipeline) :
  _ready s = true ->
  (forall r, env_asr env <> Replied r) \/ (forall r, env_llm env <> Replied r) ->
  let out := process_voice_input env audio_data user_id session_id s in
  is_failure (fst out) = true /\
  database (snd out) = database s /\
  (exists issued,
     ipc_calls (snd out) = (ipc_calls s ++ issued)%list /\
     forall c, c ∈ issued -> call_service_name c <> Transport.tts) /\
  (exists lg,
     log (snd out) = (log s ++ lg)%list /\
     forall rcd, rcd ∈ lg -> function_record rcd = false) /\
  failed_requests (_metrics (snd out)) = S (failed_requests (_metrics s)).
Proof.
  intros Hready Hfail. cbv zeta.
  unfold process_voice_input, pipeline_body, call_service. unmonad.
  rewrite Hready. simpl.
  destruct (Thermal.should_throttle (thermal_monitor s));
    (destruct audio_data as [b|a]; simpl; [failed_path|]);
    (destruct (env_asr env) as [ra| | |] eqn:Hasr; [|failed_path..]);
    (destruct (Qltb _ _); simpl);
    unfold Store.get_user_context;
    (destruct (Store.sio_fault (env_get_context env)); simpl; [failed_path|]);
    (destruct Hfail as [Hfail|Hfail]; [destruct (Hfail ra); reflexivity|]);
    (destruct (env_llm env) as [rl| | |] eqn:Hllm;
     [destruct (Hfail rl); reflexivity | failed_path..]).
Qed.



(** Names the outcome of steps 5 to 7 and brings in what [lem] says of it. *)
Ltac tail_outcome lem r s' H :=
  match goal with
  | |- context [steps_context_tts_totals ?e ?st ?u ?se ?ps ?ta ?tl ?tr ?rp
                  ?cs ?tm ?s0] =>
      pose proof (lem e st u se ps ta tl tr rp cs tm s0) as H;
      cbv zeta in H;
      destruct (steps_context_tts_totals e st u se ps ta tl tr rp cs tm s0)
        as [r s']
  end.



(** The ASR worker stays silent: the request fails and nothing was
    appended. *)
Lemma asr_or_llm_failure_has_no_side_effect_witness :
  _ready pipeline0 = true /\
  database
    (snd (process_voice_input env_asr_silent (AudioText "UklGRg==") "alice"
            None pipeline0))
  = database pipeline0.
Proof.
  split; [reflexivity|].
  apply (asr_or_llm_failure_has_no_side_effect env_asr_silent
           (AudioText "UklGRg==") "alice" None pipeline0);
    [reflexivity | left; intros r; discriminate].
Defined.

(** C2, as amended: when [add_message] raises for the user turn or for the
    assistant turn, the exception leaves the [try] block: the request
    fails with that exception, which is logged as an error, the failure is
    counted, and no TTS call is issued. *)
Theorem context_append_failure_fails_request
    (env : Env) (a : string) (user_id : string) (session_id : option string)
    (s : VoicePipeline) (ra : asr_reply) (rl : llm_reply) (e : exn) :
  _ready s = true ->
  env_asr env = Replied ra ->
  Store.sio_fault (env_get_context env) = None ->
  env_llm env = Replied rl ->
  Store.sio_fault (env_add_user env) = Some e \/
  (Store.sio_fault (env_add_user env) = None /\
   Store.sio_fault (env_add_assistant env) = Some e) ->
  let out := process_voice_input env (AudioText a) user_id session_id s in
  fst out = inl e /\
  (exists issued,
     ipc_calls (snd out) = (ipc_calls s ++ issued)%list /\
     forall c, c ∈ issued -> call_service_name c <> Transport.tts) /\
  last (log (snd out))
  = Some (ErrPipelineFailed (default (env_uuid env) session_id) e) /\
  failed_requests (_metrics (snd out)) = S (failed_requests (_metrics s)) /\
  successful_requests (_metrics (snd out)) = successful_requests (_metrics s).
Proof.
  intros Hready Hasr Hctx Hllm Hstore. cbv zeta.
  unfold process_voice_input, pipeline_body, call_service. unmonad.
  unfold Store.get_user_context.
  rewrite Hready, Hasr, Hllm, Hctx. simpl.
  destruct (Thermal.should_throttle (thermal_monitor s)); simpl;
    (destruct (Qltb (asr_timeout_seconds _) _); simpl);
    (destruct (_ && Qltb _ _); simpl);
    frame_step_4;
    tail_outcome steps_context_tts_totals_store_failure r s' Hout;
    destruct (Hout e Hstore) as (Hr & Hc & Hl & Hm);
    simpl in *; subst r; simpl;
    rewrite Hc, Hl, Hm, last_snoc; failed_path.
Qed.

Lemma context_append_failure_fails_request_witness :
  _ready pipeline0 = true /\
  fst (process_voice_input env_store_down (AudioText "UklGRg==") "alice"
         None pipeline0)
  = inl (SqliteError "disk I/O error").
Proof.
  split; [reflexivity|].
  apply (context_append_failure_fails_request env_store_down "UklGRg=="
           "alice" None pipeline0 heard answered);
    try reflexivity.
  left; reflexivity.
Defined.

(** C2 as stated fails: the store refuses the insert of the user turn; the
    request fails, and the only transport calls issued are those of the
    ASR and LLM stages. *)
Lemma store_failure_skips_tts :
  let out := process_voice_input env_store_down (AudioText "UklGRg==")
               "alice" None pipeline0 in
  is_failure (fst out) = true /\
  map call_service_name (ipc_calls (snd out))
  = [Transport.asr; Transport.llm] /\
  map function_record (log (snd out)) = [true; true; false].
Proof. vm_compute. repeat split; reflexivity. Qed.

(** One request on a ready pipeline: it stays ready; a result comes with
    the seven stage entries and one more in [total_requests] and
    [successful_requests]; a failure adds one to [failed_requests] only and
    records no latency. *)
Lemma process_voice_input_effect env audio_data user_id session_id s :
  _ready s = true ->
  let out := process_voice_input env audio_data user_id session_id s in
  let m := _metrics s in
  let m' := _metrics (snd out) in
  _ready (snd out) = true /\
  match fst out with
  | inr v =>
      (forall k, k ∈ stage_keys -> is_Some (timing v !! k)) /\
      total_requests m' = S (total_requests m) /\
      successful_requests m' = S (successful_requests m) /\
      failed_requests m' = failed_requests m
  | inl _ =>
      _latencies (snd out) = _latencies s /\
      total_requests m' = total_requests m /\
      successful_requests m' = successful_requests m /\
      failed_requests m' = S (failed_requests m)
  end.
Proof.
  intros Hready. cbv zeta.
  unfold process_voice_input, pipeline_body, call_service. unmonad.
  unfold Store.get_user_context. rewrite Hready. simpl.
  destruct (Thermal.should_throttle (thermal_monitor s));
    (destruct audio_data as [b|a]; simpl; [auto|]);
    (destruct (env_asr env) as [ra| | |]; simpl; [|auto..]);
    (destruct (Qltb (asr_timeout_seconds _) _); simpl);
    (destruct (Store.sio_fault (env_get_context env)); simpl; [auto|]);
    (destruct (env_llm env) as [rl| | |]; simpl; [|auto..]);
    (destruct (_ && Qltb _ _); simpl);
    frame_step_4;
    tail_outcome steps_context_tts_totals_summary r s' Hout;
    simpl in Hout; destruct Hout as (Hrd & Hout);
    (destruct r as [e|v]; simpl;
     [destruct Hout as (-> & ->); split; [congruence | auto]
     |destruct Hout as (_ & Hkeys & Ht & Hs & Hf);
      split; [congruence|]; split; [|auto];
      intros k Hk; apply Hkeys;
      unfold stage_keys in Hk;
      repeat (apply elem_of_cons in Hk as [->|Hk];
              [first [ left; solve [repeat constructor]
                     | right; apply Htm;
                       destruct (Qltb 0 _ && _);
                       eauto 6 using is_Some_insert_same, is_Some_insert_keep ]
              |]);
      apply elem_of_nil in Hk; contradiction]).
Qed.




(** Through the HTTP entry point a failure surfaces as status 500 with the
    message of the exception. *)
Lemma voice_interact_failure env bytes user_id session_id s e :
  fst (process_voice_input env (AudioBytes bytes) user_id session_id s) = inl e ->
  fst (voice_interact env bytes user_id session_id s)
  = HTTPException 500 ("Voice interaction failed: " ++ str_exn e).
Proof.
  intros H. unfold voice_interact.
  destruct (process_voice_input env (AudioBytes bytes) user_id session_id s)
    as [[e'|v] s']; simpl in *; congruence.
Qed.

(** ** Metrics over a sequence of requests *)

Lemma serve_counters requests s :
  _ready s = true ->
  let out := serve requests s in
  let m := _metrics s in
  let m' := _metrics (snd out) in
  _ready (snd out) = true /\
  List.length (fst out) = List.length requests /\
  total_requests m' + failures (fst out)
    = total_requests m + List.length requests /\
  successful_requests m' + failures (fst out)
    = successful_requests m + List.length requests /\
  failed_requests m' = failed_requests m + failures (fst out).
Proof.
  revert s. induction requests as [|rq rest IH]; intros s Hready; cbv zeta.
  - simpl. unfold failures. simpl. repeat split; auto; lia.
  - simpl.
    pose proof (process_voice_input_effect (rq_env rq) (rq_audio rq)
                  (rq_user_id rq) (rq_session_id rq) s Hready) as H.
    cbv zeta in H.
    destruct (process_voice_input (rq_env rq) (rq_audio rq) (rq_user_id rq)
                (rq_session_id rq) s) as [r s1].
    simpl in H. destruct H as (Hready1 & H).
    specialize (IH s1 Hready1). cbv zeta in IH.
    destruct (serve rest s1) as [rs s2]. simpl in *.
    destruct IH as (Hr & Hlen & Ht & Hs & Hf).
    unfold failures in *. simpl.
    destruct r as [e|v]; simpl;
      [destruct H as (_ & Ht1 & Hs1 & Hf1)
      |destruct H as (_ & Ht1 & Hs1 & Hf1)];
      repeat split; auto; lia.
Qed.

(** C10, as amended: starting from fresh counters on a pipeline that is
    ready, after any sequence of voice requests [total_requests] equals
    [successful_requests], [failed_requests] counts exactly the failed
    requests, and as soon as one request has failed [total_requests]
    differs from [successful_requests + failed_requests]. *)
Theorem total_requests_counts_successes_only
    (requests : list voice_request) (s : VoicePipeline) :
  _ready s = true ->
  _metrics s = initial_metrics ->
  let out := serve requests s in
  let m := _metrics (snd out) in
  total_requests m = successful_requests m /\
  failed_requests m = failures (fst out) /\
  successful_requests m + failed_requests m = List.length requests /\
  (0 < failures (fst out) ->
   total_requests m <> successful_requests m + failed_requests m).
Proof.
  intros Hready Hinit. cbv zeta.
  destruct (serve_counters requests s Hready) as (_ & _ & Ht & Hs & Hf).
  rewrite Hinit in *. simpl in *. repeat split; lia.
Qed.

(** One success and one failure: [total_requests] is 1, not 2. *)
Lemma total_requests_counts_successes_only_witness :
  _ready pipeline0 = true /\
  _metrics pipeline0 = initial_metrics /\
  total_requests (_metrics (snd (serve two_requests pipeline0)))
  = successful_requests (_metrics (snd (serve two_requests pipeline0))).
Proof.
  split; [reflexivity|]. split; [reflexivity|].
  apply (total_requests_counts_successes_only two_requests pipeline0);
    reflexivity.
Defined.

(** C10 as stated fails: on a pipeline that is not ready both requests
    fail, yet [failed_requests] stays 0 and [total_requests] equals
    [successful_requests + failed_requests]. *)
Lemma unready_failures_are_not_counted :
  let out := serve two_requests pipeline_unready in
  let m := _metrics (snd out) in
  failures (fst out) = 2 /\
  failed_requests m = 0 /\
  total_requests m = successful_requests m + failed_requests m.
Proof. vm_compute. repeat split. Qed.

Example two_requests_counters :
  let m := _metrics (snd (serve two_requests pipeline0)) in
  (total_requests m, successful_requests m, failed_requests m) = (1, 1, 1).
Proof. vm_compute. reflexivity. Qed.

End PipelineFacts.

(** ** Prompt assembly *)

Section PromptFacts.

Import LLMService.
Import Pipeline.

Lemma string_app_cons c (s t : string) : String c s ++ t = String c (s ++ t).
Proof. reflexivity. Qed.

Lemma string_app_assoc (a b c : string) : (a ++ b) ++ c = a ++ (b ++ c).
Proof.
  induction a as [|x a IH]; [reflexivity|].
  rewrite !string_app_cons. now rewrite IH.
Qed.

Lemma string_app_nil_r (a : string) : a ++ EmptyString = a.
Proof.
  induction a as [|x a IH]; [reflexivity|].
  rewrite string_app_cons. now rewrite IH.
Qed.

Lemma string_length_app (a b : string) :
  String.length (a ++ b) = String.length a + String.length b.
Proof.
  induction a as [|x a IH]; [reflexivity|].
  rewrite string_app_cons. simpl. now rewrite IH.
Qed.

Lemma append_turn_render acc msg : append_turn acc msg = acc ++ render_turn msg.
Proof.
  reflexivity.
Qed.

(** The loop over the context appends the rendered turns in order. *)
Lemma fold_append_turn turns acc :
  fold_left append_turn turns acc = acc ++ join_all (map render_turn turns).
Proof.
  revert acc. induction turns as [|msg turns IH]; intros acc.
  - simpl. now rewrite string_app_nil_r.
  - cbn [fold_left map join_all fold_right]. rewrite IH, append_turn_render.
    apply string_app_assoc.
Qed.

Lemma last_n_length {A : Type} n (l : list A) :
  List.length (last_n n l) = Nat.min n (List.length l).
Proof. unfold last_n. rewrite length_skipn. lia. Qed.

Lemma last_n_suffix {A : Type} n (l : list A) :
  exists older, l = (older ++ last_n n l)%list.
Proof.
  exists (firstn (List.length l - n) l). unfold last_n.
  symmetry. apply firstn_skipn.
Qed.

(** C4, as amended: the coordinator puts the transcription, unchanged,
    into the [prompt] field of the LLM request and sends the context
    beside it; the LLM worker builds the prompt of the model from that
    request: the last five context turns, each as [role: content] and a
    line feed (the role as stored, [user] when absent), then [user: ],
    the prompt, a line feed and the marker [assistant: ]. *)
Theorem prompt_is_assembled_by_worker
    (st : PSettings) (transcription : string) (user_context : list msg_dict)
    (user_id : string) :
  let request := llm_request_data st transcription user_context user_id in
  request_prompt request = Some transcription /\
  engine_prompt (as_generate_data request)
  = join_all (map render_turn (last_n 5 user_context))
    ++ "user: " ++ transcription ++ nl ++ "assistant: " /\
  List.length (last_n 5 user_context) = Nat.min 5 (List.length user_context) /\
  exists older, user_context = (older ++ last_n 5 user_context)%list.
Proof.
  cbv zeta. split; [reflexivity|]. split.
  - unfold engine_prompt, as_generate_data, llm_request_data. simpl.
    unfold _build_prompt_with_context. now rewrite fold_append_turn.
  - split; [apply last_n_length | apply last_n_suffix].
Qed.

(** C4 as stated fails: for the transcription [hi] and an empty context
    the prompt in the coordinator's request is [hi] itself; it is not a
    context, a line feed, the prompt and the marker [assistant: ],
    whatever the context part is. *)
Lemma coordinator_sends_bare_transcription :
  let request := llm_request_data default_psettings "hi" [] "alice" in
  request_prompt request = Some "hi" /\
  forall turns : string,
    request_prompt request <> Some (turns ++ nl ++ "hi" ++ "assistant: ").
Proof.
  cbv zeta. split; [reflexivity|].
  intros turns H. injection H as H.
  apply (f_equal String.length) in H.
  rewrite !string_length_app in H. simpl in H. lia.
Qed.

Example prompt_for_one_turn :
  engine_prompt
    (as_generate_data
       (llm_request_data default_psettings "hi"
          [mkMsgDict (Some "assistant") (Some "Hello.") (Some 1%Z)] "alice"))
  = "assistant: Hello." ++ nl ++ "user: hi" ++ nl ++ "assistant: ".
Proof. vm_compute. reflexivity. Qed.

End PromptFacts.

(* ===================================================================== *)
(** * Further properties *)
(* ===================================================================== *)

(** ** Thermal monitor: what the state machine keeps *)

Section ThermalMore.

Import Thermal.
Import Sampler.

(** An event either leaves state and notifications alone, or notifies the
    callbacks of the state it led to. *)
Lemma apply_event_notified m e :
  (notified (apply_event m e) = notified m /\
   state (apply_event m e) = state m) \/
  notified (apply_event m e) = state (apply_event m e) :: notified m.
Proof.
  destruct e as [max_temp|]; simpl; [|now right].
  unfold _update_state.
  destruct (state m) eqn:Hs; simpl;
    repeat match goal with
           | |- context [Qgeb ?a ?b] => destruct (Qgeb a b); simpl
           | |- context [Qltb ?a ?b] => destruct (Qltb a b); simpl
           end; rewrite ?Hs; simpl; auto.
Qed.

Lemma sample_never_cools m max_temp :
  state m <> COOLDOWN -> state (_update_state m max_temp) <> COOLDOWN.
Proof.
  intros Hs. rewrite update_state_unfold.
  destruct (state m); try congruence;
    destruct (Qgeb max_temp (critical_temp m)); try discriminate;
    destruct (Qgeb max_temp (warning_temp m)); discriminate.
Qed.

(** X1.  No reading puts the monitor into Cooldown: as long as nobody
    calls [trigger_cooldown], a monitor that is not in Cooldown never gets
    there, and no callback registered for Cooldown runs. *)
Theorem cooldown_only_on_request (m : ThermalMonitor) (events : list event) :
  state m <> COOLDOWN ->
  TriggerCooldown ∉ events ->
  state (run_events m events) <> COOLDOWN /\
  exists newer,
    notified (run_events m events) = (newer ++ notified m)%list /\
    COOLDOWN ∉ newer.
Proof.
  revert m. induction events as [|e events IH]; intros m Hs Hno.
  - split; [exact Hs|]. exists []. split; [reflexivity | apply not_elem_of_nil].
  - destruct e as [max_temp|]; [|exfalso; apply Hno; left].
    pose proof (sample_never_cools m max_temp Hs) as Hs1.
    assert (Hno1 : TriggerCooldown ∉ events)
      by (intros H; apply Hno; now right).
    destruct (IH _ Hs1 Hno1) as (Hfinal & newer & Hnewer & Hnot).
    split; [exact Hfinal|].
    change (run_events m (Sample max_temp :: events))
      with (run_events (_update_state m max_temp) events).
    rewrite Hnewer.
    destruct (apply_event_notified m (Sample max_temp)) as [[Hn _]|Hn];
      simpl in Hn; rewrite Hn.
    + exists newer. split; [reflexivity | exact Hnot].
    + exists (newer ++ [state (_update_state m max_temp)])%list.
      split; [now rewrite <- app_assoc|].
      intros Hin. apply elem_of_app in Hin as [Hin|Hin]; [contradiction|].
      apply list_elem_of_singleton in Hin. congruence.
Qed.

Lemma cooldown_only_on_request_witness :
  state (default_monitor WARNING) <> COOLDOWN /\
  state (run_events (default_monitor WARNING) [Sample 90; Sample 60]) <> COOLDOWN.
Proof.
  split; [discriminate|].
  apply (cooldown_only_on_request (default_monitor WARNING)
           [Sample 90; Sample 60]).
  - discriminate.
  - intros H. repeat (apply elem_of_cons in H as [H|H]; [discriminate|]).
    now apply elem_of_nil in H.
Defined.

(** X2.  After a cooldown request the monitor stays in Cooldown, and
    keeps asking for throttling, for as long as every reading is at or
    above the cooldown threshold - also when the readings are far below
    [warn]. *)
Theorem cooldown_holds_while_warm (m : ThermalMonitor) (samples : list Q) :
  Forall (fun t => (cooldown_temp m <= t)%Q) samples ->
  state (run_samples (trigger_cooldown m) samples) = COOLDOWN /\
  should_throttle (run_samples (trigger_cooldown m) samples) = true.
Proof.
  intros Hwarm.
  assert (H : forall m0, state m0 = COOLDOWN ->
              cooldown_temp m0 = cooldown_temp m ->
              state (run_samples m0 samples) = COOLDOWN).
  { induction Hwarm as [|t samples Ht _ IH]; intros m0 Hs Hc; [exact Hs|].
    change (run_samples m0 (t :: samples))
      with (run_samples (_update_state m0 t) samples).
    apply IH.
    - rewrite update_state_unfold, Hs, Hc.
      apply Qltb_ge in Ht. now rewrite Ht.
    - destruct (update_state_thresholds m0 t) as (_ & _ & ->). exact Hc. }
  specialize (H (trigger_cooldown m) eq_refl eq_refl).
  split; [exact H|]. unfold should_throttle. now rewrite H.
Qed.

Lemma cooldown_holds_while_warm_witness :
  Forall (fun t => (cooldown_temp (default_monitor CRITICAL) <= t)%Q)
         [72%Q; 70%Q] /\
  state (run_samples (trigger_cooldown (default_monitor CRITICAL))
                     [72%Q; 70%Q]) = COOLDOWN.
Proof.
  split; [repeat constructor; discriminate|].
  apply (cooldown_holds_while_warm (default_monitor CRITICAL) [72%Q; 70%Q]).
  repeat constructor; discriminate.
Defined.



End ThermalMore.

(** ** Thermal sampling loop *)

Section SamplerFacts.

Import Thermal.
Import Sampler.

Lemma hottest_spec first rest :
  hottest first rest ∈ first :: rest /\
  forall kv, kv ∈ first :: rest -> (snd kv <= snd (hottest first rest))%Q.
Proof.
  revert first. induction rest as [|x rest IH]; intros first.
  - simpl. split; [left|]. intros kv Hkv.
    apply list_elem_of_singleton in Hkv as ->. apply Qle_refl.
  - unfold hottest. cbn [fold_left].
    destruct (Qltb (snd first) (snd x)) eqn:E.
    + fold (hottest x rest). destruct (IH x) as [Hin Hmax].
      split; [now right|].
      intros kv Hkv. apply elem_of_cons in Hkv as [->|Hkv]; [|now apply Hmax].
      apply Qltb_lt in E. apply Qlt_le_weak in E.
      eapply Qle_trans; [exact E|]. apply Hmax. left.
    + fold (hottest first rest). destruct (IH first) as [Hin Hmax].
      split.
      * apply elem_of_cons in Hin as [Hin|Hin];
          [rewrite Hin; left | right; now right].
      * intros kv Hkv. apply elem_of_cons in Hkv as [->|Hkv];
          [apply Hmax; left|].
        apply elem_of_cons in Hkv as [->|Hkv]; [|apply Hmax; now right].
        apply Qltb_ge in E. eapply Qle_trans; [exact E|]. apply Hmax. left.
Qed.

Lemma temperatures_of_reads zone_reads name t :
  (name, Some t) ∈ zone_reads -> (name, t) ∈ get_current_temperatures zone_reads.
Proof.
  induction zone_reads as [|[n [x|]] rest IH]; intros Hin.
  - now apply elem_of_nil in Hin.
  - simpl. apply elem_of_cons in Hin as [Heq|Hin].
    + injection Heq as <- <-. left.
    + right. now apply IH.
  - simpl. apply elem_of_cons in Hin as [Heq|Hin]; [discriminate|].
    now apply IH.
Qed.

Lemma last_n_bound {A : Type} n (l : list A) : List.length (last_n n l) <= n.
Proof. unfold last_n. rewrite length_skipn. lia. Qed.

Lemma last_n_last {A : Type} n (l : list A) (x : A) :
  0 < n -> last (last_n n (l ++ [x])) = Some x.
Proof.
  intros Hn. unfold last_n. rewrite length_app. simpl.
  rewrite skipn_app.
  replace (List.length l + 1 - n - List.length l) with 0 by lia.
  simpl. apply last_snoc.
Qed.

(** X4.  The history is a window: a history of at most 100 readings has at
    most 100 readings after any number of turns of the loop. *)
Theorem history_is_bounded
    (samples : list (list (string * option Q) * Q)) (sp : Sampler) :
  List.length (readings sp) <= max_history ->
  List.length (readings (monitor_loop samples sp)) <= max_history.
Proof.
  revert sp. induction samples as [|[zone_reads now] samples IH];
    intros sp Hlen; [exact Hlen|].
  change (monitor_loop ((zone_reads, now) :: samples) sp)
    with (monitor_loop samples (monitor_iteration zone_reads now sp)).
  apply IH. unfold monitor_iteration.
  destruct (get_current_temperatures zone_reads) as [|kv rest]; [exact Hlen|].
  cbn [readings].
  destruct (max_history <? _)%nat eqn:E.
  - apply last_n_bound.
  - apply Nat.ltb_ge in E. exact E.
Qed.

Lemma history_is_bounded_witness :
  List.length (readings (mkSampler (default_monitor NORMAL) []))
    <= max_history /\
  List.length
    (readings
       (monitor_loop [([("cpu", Some 50%Q)], 1%Q); ([("cpu", None)], 2%Q)]
          (mkSampler (default_monitor NORMAL) [])))
    <= max_history.
Proof.
  split; [unfold max_history; simpl; lia|].
  apply (history_is_bounded
           [([("cpu", Some 50%Q)], 1%Q); ([("cpu", None)], 2%Q)]
           (mkSampler (default_monitor NORMAL) [])).
  unfold max_history; simpl; lia.
Defined.

Lemma last_n_all {A : Type} n (l : list A) :
  List.length l <= n -> last_n n l = l.
Proof.
  intros Hlen. unfold last_n.
  replace (List.length l - n) with 0 by lia. reflexivity.
Qed.

(** X5.  When at least one zone could be read, the turn of the loop
    appends one reading to the history and keeps the last 100 entries of
    the result (so a history with room is extended by exactly that
    reading): the reading carries the clock reading, names a zone that
    was read, carries that zone's temperature, and no zone that was read
    is hotter. *)
Theorem recorded_reading_is_hottest
    (zone_reads : list (string * option Q)) (now : Q) (sp : Sampler)
    (name : string) (t : Q) :
  (name, Some t) ∈ zone_reads ->
  exists r,
    readings (monitor_iteration zone_reads now sp)
    = last_n max_history (readings sp ++ [r]) /\
    (List.length (readings sp) < max_history ->
     readings (monitor_iteration zone_reads now sp)
     = (readings sp ++ [r])%list) /\
    last (readings (monitor_iteration zone_reads now sp)) = Some r /\
    timestamp r = now /\
    (zone r, temperature r) ∈ get_current_temperatures zone_reads /\
    forall z tz, (z, Some tz) ∈ zone_reads -> (tz <= temperature r)%Q.
Proof.
  intros Hin. apply temperatures_of_reads in Hin as Htemps.
  unfold monitor_iteration.
  destruct (get_current_temperatures zone_reads) as [|kv rest] eqn:Hg;
    [now apply elem_of_nil in Htemps|].
  destruct (hottest_spec kv rest) as [Hbest Hmax].
  exists (mkReading (snd (hottest kv rest)) now (fst (hottest kv rest))).
  cbn [readings].
  assert (Hone : forall x : ThermalReading, List.length [x] = 1)
    by reflexivity.
  split.
  { destruct (max_history <? _)%nat eqn:E; [reflexivity|].
    apply Nat.ltb_ge in E. now rewrite last_n_all. }
  split.
  { intros Hroom. destruct (max_history <? _)%nat eqn:E; [|reflexivity].
    apply Nat.ltb_lt in E. rewrite length_app, Hone in E. lia. }
  split.
  - destruct (max_history <? _)%nat;
      [apply last_n_last; unfold max_history; lia | apply last_snoc].
  - split; [reflexivity|]. split.
    + simpl. now destruct (hottest kv rest).
    + intros z tz Hz. simpl.
      apply temperatures_of_reads in Hz. rewrite Hg in Hz.
      exact (Hmax (z, tz) Hz).
Qed.

(** Two zones read into a history that holds one reading: the history
    has two readings afterwards, the new one from the hotter zone. *)
Lemma recorded_reading_is_hottest_witness :
  ("gpu", Some 61%Q) ∈ [("cpu", Some 55%Q); ("gpu", Some 61%Q)] /\
  exists r,
    readings
      (monitor_iteration [("cpu", Some 55%Q); ("gpu", Some 61%Q)] 7
         (mkSampler (default_monitor NORMAL) [mkReading 50 5 "cpu"]))
    = last_n max_history ([mkReading 50 5 "cpu"] ++ [r]) /\
    timestamp r = 7%Q.
Proof.
  split; [right; left|].
  destruct (recorded_reading_is_hottest
              [("cpu", Some 55%Q); ("gpu", Some 61%Q)] 7
              (mkSampler (default_monitor NORMAL) [mkReading 50 5 "cpu"])
              "gpu" 61)
    as (r & Hr & _ & _ & Ht & _); [right; left|].
  exists r. split; assumption.
Defined.

(** X6.  One hot zone is enough: if any zone reads at or above the
    critical threshold and the monitor is not in Cooldown, the turn of the
    loop leaves it in Critical and [should_throttle] answers yes. *)
Theorem critical_zone_throttles
    (zone_reads : list (string * option Q)) (now : Q) (sp : Sampler)
    (name : string) (t : Q) :
  (name, Some t) ∈ zone_reads ->
  (critical_temp (monitor sp) <= t)%Q ->
  state (monitor sp) <> COOLDOWN ->
  state (monitor (monitor_iteration zone_reads now sp)) = CRITICAL /\
  should_throttle (monitor (monitor_iteration zone_reads now sp)) = true.
Proof.
  intros Hin Hcrit Hstate. apply temperatures_of_reads in Hin.
  unfold monitor_iteration.
  destruct (get_current_temperatures zone_reads) as [|kv rest] eqn:Hg;
    [now apply elem_of_nil in Hin|].
  destruct (hottest_spec kv rest) as [_ Hmax].
  pose proof (Hmax (name, t) Hin) as Hle. simpl in Hle.
  assert (Hc : state (_update_state (monitor sp) (snd (hottest kv rest)))
               = CRITICAL).
  { rewrite update_state_unfold.
    assert (Hg' : Qgeb (snd (hottest kv rest)) (critical_temp (monitor sp))
                  = true)
      by (apply Qgeb_le; eapply Qle_trans; eassumption).
    destruct (state (monitor sp)); try congruence; now rewrite Hg'. }
  cbn [monitor]. split; [exact Hc|]. unfold should_throttle. now rewrite Hc.
Qed.

Lemma critical_zone_throttles_witness :
  ("soc", Some 89%Q) ∈ [("cpu", Some 60%Q); ("soc", Some 89%Q)] /\
  should_throttle
    (monitor (monitor_iteration [("cpu", Some 60%Q); ("soc", Some 89%Q)] 3
                (mkSampler (default_monitor NORMAL) []))) = true.
Proof.
  split; [right; left|].
  apply (critical_zone_throttles [("cpu", Some 60%Q); ("soc", Some 89%Q)] 3
           (mkSampler (default_monitor NORMAL) []) "soc" 89).
  - right; left.
  - discriminate.
  - discriminate.
Defined.

End SamplerFacts.

(** ** Context store: what the query guarantees *)

Section StoreMore.

Import Store.
Import StoreOps.

Lemma sorted_snoc {A : Type} (R : A -> A -> Prop) l x :
  StronglySorted R l -> Forall (fun a => R a x) l ->
  StronglySorted R (l ++ [x]).
Proof.
  induction 1 as [|y l Hs IH Hy]; intros Hx; simpl.
  - repeat constructor.
  - apply Forall_cons in Hx as [Hyx Hx]. constructor; [now apply IH|].
    apply Forall_app. split; [exact Hy | now constructor].
Qed.

Lemma elem_of_rev_iff {A : Type} (x : A) l : x ∈ rev l <-> x ∈ l.
Proof. rewrite !list_elem_of_In. symmetry. apply in_rev. Qed.

Lemma sorted_rev {A : Type} (R : A -> A -> Prop) l :
  StronglySorted R l -> StronglySorted (fun a b => R b a) (rev l).
Proof.
  induction 1 as [|x l Hs IH Hx]; simpl; [constructor|].
  apply sorted_snoc; [exact IH|].
  apply Forall_forall. intros a Ha. apply (proj1 (elem_of_rev_iff _ _)) in Ha.
  rewrite Forall_forall in Hx. now apply Hx.
Qed.

Lemma sorted_split {A : Type} (R : A -> A -> Prop) l n :
  StronglySorted R l ->
  StronglySorted R (firstn n l) /\
  forall a b, a ∈ firstn n l -> b ∈ skipn n l -> R a b.
Proof.
  intros Hs. revert n. induction Hs as [|x l Hs IH Hx]; intros n.
  - rewrite firstn_nil, skipn_nil. split; [constructor|].
    intros a b Ha. now apply elem_of_nil in Ha.
  - destruct n as [|n]; simpl.
    + split; [constructor|]. intros a b Ha. now apply elem_of_nil in Ha.
    + destruct (IH n) as [IH1 IH2]. split.
      * constructor; [exact IH1|].
        apply Forall_forall. intros a Ha.
        rewrite Forall_forall in Hx. apply Hx.
        rewrite <- (firstn_skipn n l). apply elem_of_app. now left.
      * intros a b Ha Hb. apply elem_of_cons in Ha as [->|Ha].
        -- rewrite Forall_forall in Hx. apply Hx.
           rewrite <- (firstn_skipn n l). apply elem_of_app. now right.
        -- now apply IH2.
Qed.

(** X7.  What [get_user_context] guarantees whatever the ties: the turns
    it returns are turns of that user, oldest first by timestamp; every
    turn of the user it leaves out is no newer than any it returns; with
    a limit [k >= 0] it returns [min k n] of the user's [n] turns, with a
    negative limit all of them. *)
Theorem get_user_context_newest_by_timestamp
    (io : store_io) (db : Database) (user_id : string) (k : Z)
    (ctx : list msg_dict) :
  get_user_context io db user_id k = inr ctx ->
  exists kept dropped,
    ctx = map row_dict kept /\
    Permutation (where_user user_id (messages db)) (kept ++ dropped) /\
    StronglySorted (fun a b => (msg_timestamp a <= msg_timestamp b)%Z) kept /\
    (forall a b, a ∈ kept -> b ∈ dropped ->
                 (msg_timestamp b <= msg_timestamp a)%Z) /\
    ((0 <= k)%Z ->
     List.length ctx
     = Nat.min (Z.to_nat k)
               (List.length (where_user user_id (messages db)))) /\
    ((k < 0)%Z -> dropped = []).
Proof.
  unfold get_user_context, select_context. destruct (sio_fault io);
    [discriminate|]. intros H. injection H as <-.
  set (rows := where_user user_id (messages db)).
  destruct (order_by_timestamp_desc_admissible rows) as [Hperm Hsorted].
  set (sorted := order_by_timestamp_desc rows) in *.
  set (n := if (k <? 0)%Z then List.length sorted else Z.to_nat k).
  assert (Hlimit : sql_limit k sorted = firstn n sorted).
  { unfold sql_limit, n. destruct (k <? 0)%Z; [|reflexivity].
    symmetry. apply firstn_all. }
  rewrite Hlimit.
  destruct (sorted_split _ sorted n Hsorted) as [Hfirst Hcross].
  exists (rev (firstn n sorted)), (skipn n sorted).
  split; [reflexivity|]. split.
  - rewrite Hperm. rewrite <- (firstn_skipn n sorted) at 1.
    apply Permutation_app_tail. apply Permutation_rev.
  - split; [exact (sorted_rev _ _ Hfirst)|]. split.
    + intros a b Ha Hb. apply (proj1 (elem_of_rev_iff _ _)) in Ha. now apply Hcross.
    + split.
      * intros Hk. rewrite length_map, length_rev, length_firstn.
        unfold n. destruct (k <? 0)%Z eqn:E; [apply Z.ltb_lt in E; lia|].
        now rewrite (Permutation_length Hperm).
      * intros Hk. unfold n. apply Z.ltb_lt in Hk. rewrite Hk.
        apply skipn_all.
Qed.

Lemma get_user_context_newest_by_timestamp_witness :
  get_user_context (io_ok 2) Scenarios.db_same_second "alice" 1
    = inr [row_dict Scenarios.user_turn] /\
  exists kept dropped,
    [row_dict Scenarios.user_turn] = map row_dict kept /\
    Permutation (where_user "alice" (messages Scenarios.db_same_second))
                (kept ++ dropped).
Proof.
  split; [vm_compute; reflexivity|].
  destruct (get_user_context_newest_by_timestamp (io_ok 2)
              Scenarios.db_same_second "alice" 1
              [row_dict Scenarios.user_turn])
    as (kept & dropped & H1 & H2 & _); [vm_compute; reflexivity|].
  exists kept, dropped. split; assumption.
Defined.

Lemma where_user_other user_id other rows :
  user_id <> other ->
  where_user user_id (filter (fun r => msg_user_id r <> other) rows)
  = where_user user_id rows.
Proof.
  intros Hne. unfold where_user. rewrite list_filter_filter.
  apply list_filter_iff. intros r. split; [tauto|].
  intros H. split; [exact H | congruence].
Qed.

Lemma where_user_cleared user_id rows :
  where_user user_id (filter (fun r => msg_user_id r <> user_id) rows) = [].
Proof.
  unfold where_user. rewrite list_filter_filter.
  induction rows as [|r rows IH]; [reflexivity|].
  rewrite filter_cons_False; [exact IH | tauto].
Qed.

(** X8.  Users do not see each other's turns: appending a turn for one
    user, or clearing one user's history, leaves what [get_user_context]
    returns for every other user as it was. *)
Theorem other_users_context_unchanged
    (io1 io2 : store_io) (db db' : Database) (user_id other : string)
    (role content : string) (session_id : option string) (k : Z) :
  user_id <> other ->
  add_message io1 db other role content session_id = inr db' \/
  clear_user_context io1 db other = inr db' ->
  get_user_context io2 db' user_id k = get_user_context io2 db user_id k.
Proof.
  intros Hne Hop. unfold get_user_context, select_context.
  destruct (sio_fault io2); [reflexivity|].
  assert (Hw : where_user user_id (messages db')
               = where_user user_id (messages db)).
  { destruct Hop as [Hop|Hop].
    - unfold add_message in Hop. destruct (sio_fault io1); [discriminate|].
      injection Hop as <-. simpl. unfold where_user. rewrite filter_app.
      rewrite (filter_cons_False _ _ []); [apply app_nil_r|].
      simpl. congruence.
    - unfold clear_user_context in Hop.
      destruct (sio_fault io1); [discriminate|].
      injection Hop as <-. simpl. now apply where_user_other. }
  now rewrite Hw.
Qed.

Lemma other_users_context_unchanged_witness :
  "bob" <> "alice" /\
  get_user_context (io_ok 9) Scenarios.db_same_second "bob" 10
  = get_user_context (io_ok 9) empty_db "bob" 10.
Proof.
  split; [discriminate|].
  assert (H : exists d, add_message (io_ok 1) empty_db "alice" "user" "a" None
                        = inr d /\
                        add_message (io_ok 1) d "alice" "assistant" "b" None
                        = inr Scenarios.db_same_second)
    by (eexists; split; reflexivity).
  destruct H as (d & H1 & H2).
  rewrite (other_users_context_unchanged (io_ok 1) (io_ok 9) d
             Scenarios.db_same_second "bob" "alice" "assistant" "b" None 10);
    [|discriminate | left; exact H2].
  apply (other_users_context_unchanged (io_ok 1) (io_ok 9) empty_db d
           "bob" "alice" "user" "a" None 10); [discriminate | left; exact H1].
Defined.

(** X9.  [clear_user_context] forgets the user and nothing else: after it
    the user's context is empty, and the reminders are untouched. *)
Theorem clear_user_context_empties
    (io1 io2 : store_io) (db db' : Database) (user_id : string) (k : Z) :
  clear_user_context io1 db user_id = inr db' ->
  sio_fault io2 = None ->
  get_user_context io2 db' user_id k = inr [] /\
  reminders db' = reminders db.
Proof.
  intros Hclear Hio. unfold clear_user_context in Hclear.
  destruct (sio_fault io1); [discriminate|]. injection Hclear as <-.
  split; [|reflexivity].
  unfold get_user_context, select_context. rewrite Hio. simpl.
  rewrite where_user_cleared. unfold sql_limit.
  destruct (k <? 0)%Z; [reflexivity|]. simpl. now rewrite firstn_nil.
Qed.

Lemma clear_user_context_empties_witness :
  sio_fault (io_ok 4) = None /\
  exists db',
    clear_user_context (io_ok 3) Scenarios.db_same_second "alice" = inr db' /\
    get_user_context (io_ok 4) db' "alice" 10 = inr [].
Proof.
  split; [reflexivity|]. eexists. split; [reflexivity|].
  apply (clear_user_context_empties (io_ok 3) (io_ok 4)
           Scenarios.db_same_second _ "alice" 10); reflexivity.
Defined.

End StoreMore.

(** ** Transport: shutdown, correlation, stale responses *)

Section TransportMore.

Import Transport.
Import TransportOps.

Lemma fold_remove_lookup stuck paths (files : gmap string string) p :
  fold_left (remove_file stuck) paths files !! p =
  if decide (p ∈ paths) then
    if stuck p then files !! p else None
  else files !! p.
Proof.
  revert files. induction paths as [|q paths IH]; intros files.
  - simpl. destruct (decide (p ∈ [])) as [H|H]; [inversion H | reflexivity].
  - cbn [fold_left]. rewrite IH. unfold remove_file.
    destruct (decide (p = q)) as [->|Hne].
    + destruct (decide (q ∈ q :: paths)) as [_|H]; [|exfalso; apply H; left].
      destruct (files !! q) eqn:Hq.
      * destruct (stuck q) eqn:Hs.
        -- rewrite Hq. now destruct (decide (q ∈ paths)).
        -- rewrite lookup_delete_eq. now destruct (decide (q ∈ paths)).
      * rewrite Hq. destruct (decide (q ∈ paths)); now destruct (stuck q).
    + assert (Hsame : (match files !! q with
                       | Some _ => if stuck q then files else delete q files
                       | None => files
                       end) !! p = files !! p).
      { destruct (files !! q); [|reflexivity].
        destruct (stuck q); [reflexivity|].
        apply lookup_delete_ne. congruence. }
      rewrite Hsame.
      destruct (decide (p ∈ paths)) as [H|H];
        destruct (decide (p ∈ q :: paths)) as [H'|H']; try reflexivity.
      * exfalso. apply H'. now right.
      * apply elem_of_cons in H' as [->|H']; [congruence | contradiction].
Qed.

(** X10.  A clean restart: when [shutdown] can remove the files, a
    following [initialize] leaves each of the six transport files in
    existence and empty, whatever they held, and no other file of the
    directory is touched by either. *)
Theorem shutdown_then_initialize_is_clean
    (stuck : string -> bool) (m : IPCManager) (files : gmap string string) :
  (forall p, p ∈ all_paths m -> stuck p = false) ->
  (forall p, p ∈ all_paths m ->
     shutdown stuck m files !! p = None /\
     initialize m (shutdown stuck m files) !! p = Some EmptyString) /\
  (forall q, q ∉ all_paths m ->
     initialize m (shutdown stuck m files) !! q = files !! q).
Proof.
  intros Hfree. split.
  - intros p Hp.
    assert (Hgone : shutdown stuck m files !! p = None).
    { unfold shutdown. rewrite fold_remove_lookup.
      destruct (decide (p ∈ all_paths m)); [|contradiction].
      now rewrite (Hfree p Hp). }
    split; [exact Hgone|]. now apply initialize_missing_empty.
  - intros q Hq. unfold initialize. rewrite fold_touch_lookup.
    unfold shutdown. rewrite fold_remove_lookup.
    destruct (decide (q ∈ all_paths m)); [contradiction|].
    now destruct (files !! q).
Qed.

Lemma shutdown_then_initialize_is_clean_witness :
  (forall p, p ∈ all_paths (new_manager default_settings) ->
             (fun _ : string => false) p = false) /\
  initialize (new_manager default_settings)
    (shutdown (fun _ => false) (new_manager default_settings)
       Scenarios.stale_fs)
    !! "/dev/shm/blackbox_asr_out" = Some EmptyString.
Proof.
  split; [reflexivity|].
  apply (shutdown_then_initialize_is_clean (fun _ => false)
           (new_manager default_settings) Scenarios.stale_fs);
    [reflexivity|].
  vm_compute. set_solver.
Defined.

Context {Data Reply : Type}.
Variable dumps : request Data -> string.
Variable loads : string -> option (response Reply).

Lemma put_call_same (s : system Data Reply) i c :
  calls s !! i = Some c -> put_call i c s = s.
Proof.
  intros Hi. unfold put_call. rewrite list_insert_id by exact Hi.
  now destruct s.
Qed.

(** X11.  Response correlation: while a call waits for the response with
    its id, a poll that finds [<service>_out] missing, empty, unparseable
    or holding a response with another id changes nothing - the call keeps
    waiting and the file stays as it is. *)
Theorem poll_ignores_foreign_response
    (s : system Data Reply) (i : nat) (c : call Data Reply) (request_id : nat) :
  calls s !! i = Some c ->
  c_pc c = Waiting request_id ->
  (forall content r,
     fs s !! output_path (ipc s) (c_service c) = Some content ->
     loads content = Some r ->
     String.length content = 0 \/ resp_id r <> Some request_id) ->
  step dumps loads (Poll i) s = Some s.
Proof.
  intros Hi Hpc Hforeign. simpl. rewrite Hi, Hpc. unfold poll.
  destruct (fs s !! output_path (ipc s) (c_service c)) as [content|] eqn:Hout;
    [|now rewrite put_call_same].
  destruct (0 <? String.length content)%nat eqn:Hlen;
    [|now rewrite put_call_same].
  destruct (loads content) as [r|] eqn:Hloads;
    [|now rewrite put_call_same].
  destruct (Hforeign content r eq_refl Hloads) as [H0|Hid].
  - apply Nat.ltb_lt in Hlen. lia.
  - destruct (decide (resp_id r = Some request_id)); [contradiction|].
    now rewrite put_call_same.
Qed.

(** X12.  A response left behind is taken for the answer: if
    [<service>_out] still holds a well-formed response with id 1 when a
    new manager starts, then after [initialize] the first call to that
    service returns that response's result at its first poll, although no
    worker has run. *)
Theorem first_call_takes_stale_response
    (st : Settings) (files : gmap string string) (sv : service)
    (method : string) (data : Data) (stale : string) (r : response Reply) :
  input_path (new_manager st) sv <> output_path (new_manager st) sv ->
  files !! output_path (new_manager st) sv = Some stale ->
  (0 < String.length stale)%nat ->
  loads stale = Some r ->
  resp_id r = Some 1 ->
  resp_error r = None ->
  exists s,
    run dumps loads [Enter 0; Poll 0]
        (fresh_system (new_manager st) (initialize (new_manager st) files)
                      [(sv, method, data)]) = Some s /\
    calls s !! 0 = Some (mkCall sv method data (Returned 1 (resp_result r))) /\
    fs s !! output_path (new_manager st) sv = Some EmptyString.
Proof.
  intros Hapart Hstale Hlen Hloads Hid Herr.
  set (m := new_manager st) in *.
  set (s0 := fresh_system (Reply := Reply) m (initialize m files)
               [(sv, method, data)]).
  set (c1 := mkCall (Reply := Reply) sv method data (Waiting 1)).
  set (s1 := mkSystem (mkIPC st 1)
               (write_file (initialize m files) (input_path m sv)
                  (dumps (mkRequest 1 method data)))
               [false] [c1]).
  assert (H1 : step dumps loads (Enter 0) s0 = Some s1).
  { unfold step. change (calls s0 !! 0)
      with (Some (mkCall (Reply := Reply) sv method data Ready)).
    cbn [c_pc]. rewrite enter_succeeds. reflexivity. }
  assert (Hout : fs s1 !! output_path (ipc s1) (c_service c1) = Some stale).
  { cbn [fs ipc c_service s1 c1]. unfold write_file.
    change (output_path {| settings := st; _request_id := 1 |} sv)
      with (output_path m sv).
    rewrite lookup_insert_ne by exact Hapart.
    now apply initialize_keeps_content. }
  assert (H2 : step dumps loads (Poll 0) s1
               = Some (put_call 0 (complete c1 1 r)
                         (mkSystem (ipc s1)
                            (write_file (fs s1)
                               (output_path (ipc s1) (c_service c1))
                               EmptyString)
                            (locks s1) (calls s1)))).
  { unfold step. change (calls s1 !! 0) with (Some c1). cbn [c_pc c1].
    unfold poll. fold c1. rewrite Hout.
    apply Nat.ltb_lt in Hlen. rewrite Hlen, Hloads.
    destruct (decide (resp_id r = Some 1)); [reflexivity | contradiction]. }
  eexists. split.
  - cbn [run]. fold s0. rewrite H1. cbn [run]. rewrite H2. reflexivity.
  - split.
    + cbn [put_call calls]. unfold complete. rewrite Herr. reflexivity.
    + cbn [put_call fs]. apply lookup_insert_eq.
Qed.

End TransportMore.

Section TransportMoreWitnesses.

Import Transport.
Import Scenarios.

Lemma poll_ignores_foreign_response_witness :
  calls both_entered !! 0
    = Some (mkCall asr "transcribe" "first" (Waiting 1)) /\
  step toy_dumps toy_loads (Poll 0) both_entered = Some both_entered.
Proof.
  split; [reflexivity|].
  apply (poll_ignores_foreign_response toy_dumps toy_loads both_entered 0
           (mkCall asr "transcribe" "first" (Waiting 1)) 1);
    [reflexivity | reflexivity |].
  intros content r _ H. discriminate.
Defined.

Lemma first_call_takes_stale_response_witness :
  stale_fs !! output_path (new_manager default_settings) asr
    = Some stale_response /\
  exists s,
    run toy_dumps stale_loads [Enter 0; Poll 0]
        (fresh_system (new_manager default_settings)
           (initialize (new_manager default_settings) stale_fs)
           [(asr, "transcribe", "fresh audio")]) = Some s /\
    calls s !! 0
    = Some (mkCall asr "transcribe" "fresh audio"
                   (Returned 1 (Some "old answer"))).
Proof.
  split; [reflexivity|].
  destruct (first_call_takes_stale_response toy_dumps stale_loads
              default_settings stale_fs asr "transcribe" "fresh audio"
              stale_response
              (mkResponse (Some 1) None (Some "old answer")))
    as (s & Hrun & Hcall & _);
    try reflexivity; [discriminate | vm_compute; lia |].
  exists s. split; assumption.
Defined.

End TransportMoreWitnesses.

(** ** The worker side *)

Section WorkerFacts.

Import Transport.
Import Worker.

Context {Data Reply : Type}.
Variable work_method : string.
Variable handle : Data -> string + Reply.
Variable no_data : Data.
Variable dumps : request Data -> string.
Variable loads : string -> option (response (worker_result Reply)).
Variable loads_request : string -> option (worker_request Data).
Variable dump_response : response (worker_result Reply) -> string * bool.

Local Abbreviation process :=
  (process_request work_method handle no_data).
Local Abbreviation iteration :=
  (worker_iteration work_method handle no_data loads_request dump_response).
Local Abbreviation iterations :=
  (worker_iterations work_method handle no_data loads_request dump_response).

(** X13.  Every request gets an answer that can be matched: the response
    carries the id of the request, it carries either an error or a result
    and never both, [health] is answered without the handler, and a method
    the service does not know is answered with an error that names it. *)
Theorem process_request_answers
    (q : worker_request Data) :
  resp_id (process q) = wr_id q /\
  (resp_error (process q) = None <-> is_Some (resp_result (process q))) /\
  (wr_method q = Some "health" -> work_method <> "health" ->
   process q = mkResponse (wr_id q) None (Some StatusOk)) /\
  (wr_method q <> Some work_method -> wr_method q <> Some "health" ->
   process q
   = mkResponse (wr_id q)
       (Some ("Unknown method: " ++ str_method (wr_method q))) None).
Proof.
  unfold process_request.
  destruct (decide (wr_method q = Some work_method)) as [E1|E1].
  - destruct (handle _); simpl; repeat split; try congruence; eauto;
      try (intros [? ?]; discriminate).
  - destruct (decide (wr_method q = Some "health")) as [E2|E2]; simpl;
      repeat split; try congruence; eauto;
      try (intros [? ?]; discriminate).
Qed.

(** X14.  The skip of the loop: a request whose id equals the id the
    worker handled last is never answered - however often the loop turns,
    the worker and both files stay as they are (so the request stays in
    [<service>_in] and its caller can only time out). *)
Theorem repeated_id_is_never_answered
    (shm_input shm_output : string) (w : worker)
    (files : gmap string string) (text : string) (q : worker_request Data)
    (n : nat) :
  files !! shm_input = Some text ->
  loads_request text = Some q ->
  wr_id q = last_request_id w ->
  iterations n shm_input shm_output w files = (w, files).
Proof.
  intros Hin Hq Hid. induction n as [|n IH]; [reflexivity|].
  cbn [worker_iterations]. unfold worker_iteration at 1.
  rewrite Hin. destruct (0 <? String.length text)%nat; [|exact IH].
  rewrite Hq. destruct (decide (wr_id q = last_request_id w));
    [exact IH | contradiction].
Qed.

(** X15.  The round trip of one call: a call enters, the worker's loop
    turns once, the call polls.  With codecs that read back what the other
    side wrote, separate input and output files, and a worker that did not
    just handle the same id, the call ends with exactly what the service's
    handler made of its data - its result, or a [RuntimeError] with the
    handler's message - and both files are empty again. *)
Theorem call_round_trip
    (s : system Data (worker_result Reply)) (i : nat)
    (c : call Data (worker_result Reply)) (w : worker) (text : string) :
  let request_id := S (_request_id (ipc s)) in
  let shm_input := input_path (ipc s) (c_service c) in
  let shm_output := output_path (ipc s) (c_service c) in
  let q := mkRequest request_id (c_method c) (c_data c) in
  let resp := process (as_worker_request q) in
  loads_request (dumps q) = Some (as_worker_request q) ->
  (0 < String.length (dumps q))%nat ->
  dump_response resp = (text, true) ->
  loads text = Some resp ->
  (0 < String.length text)%nat ->
  calls s !! i = Some c ->
  c_pc c = Ready ->
  c_method c = work_method ->
  shm_input <> shm_output ->
  last_request_id w <> Some request_id ->
  exists s1 w' files s3,
    step dumps loads (Enter i) s = Some s1 /\
    iteration shm_input shm_output w (fs s1) = (w', files) /\
    step dumps loads (Poll i) (with_fs s1 files) = Some s3 /\
    last_request_id w' = Some request_id /\
    calls s3 !! i
    = Some (set_pc c
              match handle (c_data c) with
              | inr r => Returned request_id (Some (Handled r))
              | inl msg =>
                  Raised request_id
                    (RuntimeError (service_name (c_service c) ++ " error: "
                                   ++ msg))
              end) /\
    fs s3 !! shm_input = Some EmptyString /\
    fs s3 !! shm_output = Some EmptyString.
Proof.
  cbv zeta. intros Hq Hqlen Hdump Hback Hlen Hi Hpc Hmethod Hapart Hlast.
  set (rid := S (_request_id (ipc s))) in *.
  set (inp := input_path (ipc s) (c_service c)) in *.
  set (outp := output_path (ipc s) (c_service c)) in *.
  set (q := mkRequest rid (c_method c) (c_data c)) in *.
  set (c1 := set_pc c (Waiting rid)).
  set (s1 := put_call i c1
               (mkSystem (mkIPC (settings (ipc s)) rid)
                  (write_file (fs s) inp (dumps q))
                  (locks s ++ [false]) (calls s))).
  assert (H1 : step dumps loads (Enter i) s = Some s1).
  { unfold step. rewrite Hi, Hpc, enter_succeeds. reflexivity. }
  set (resp := process (as_worker_request q)) in *.
  set (files := write_file (write_file (fs s1) outp text) inp EmptyString).
  assert (H2 : iteration inp outp w (fs s1) = (mkWorker (Some rid), files)).
  { unfold worker_iteration. cbn [fs s1 put_call]. unfold write_file at 1.
    rewrite lookup_insert_eq.
    apply Nat.ltb_lt in Hqlen. rewrite Hqlen, Hq.
    cbn [wr_id as_worker_request req_id q].
    destruct (decide (Some rid = last_request_id w)) as [E|_];
      [exfalso; apply Hlast; now rewrite <- E|].
    fold resp. rewrite Hdump. reflexivity. }
  assert (Hci : calls (with_fs s1 files) !! i = Some c1).
  { cbn [with_fs calls s1 put_call].
    apply list_lookup_insert_eq. eapply lookup_lt_Some; eassumption. }
  assert (Hout : fs (with_fs s1 files) !! outp = Some text).
  { cbn [with_fs fs]. unfold files, write_file.
    rewrite lookup_insert_ne by exact Hapart. apply lookup_insert_eq. }
  assert (Hrid : resp_id resp = Some rid).
  { unfold resp. destruct (process_request_answers (as_worker_request q))
      as (-> & _). reflexivity. }
  eexists s1, (mkWorker (Some rid)), files, _.
  split; [exact H1|]. split; [exact H2|]. split.
  - unfold step. rewrite Hci. cbn [c_pc c1 set_pc]. unfold poll.
    change (output_path (ipc (with_fs s1 files)) (c_service c1)) with outp.
    rewrite Hout. apply Nat.ltb_lt in Hlen. rewrite Hlen, Hback.
    destruct (decide (resp_id resp = Some rid)); [|contradiction].
    reflexivity.
  - split; [reflexivity|]. split.
    + cbn [put_call calls].
      rewrite list_lookup_insert_eq
        by (cbn [with_fs calls s1 put_call]; rewrite length_insert;
            eapply lookup_lt_Some; eassumption).
      f_equal. unfold complete, resp, process_request.
      cbn [wr_method wr_data wr_id as_worker_request req_method req_data
           req_id q].
      destruct (decide (Some (c_method c) = Some work_method)) as [_|E];
        [|congruence].
      change (default no_data (Some (c_data c))) with (c_data c).
      destruct (handle (c_data c)); reflexivity.
    + cbn [put_call fs with_fs]. unfold write_file. split.
      * change (output_path (ipc s1) (c_service c)) with outp.
        rewrite lookup_insert_ne by (intros E; apply Hapart; congruence).
        unfold files, write_file. apply lookup_insert_eq.
      * change (output_path (ipc s1) (c_service c)) with outp.
        apply lookup_insert_eq.
Qed.

End WorkerFacts.

Section WorkerWitnesses.

Import Transport.
Import Worker.
Import Scenarios.

Lemma repeated_id_is_never_answered_witness :
  ({[ "/dev/shm/blackbox_tts_in" := "say hello" ]} : gmap string string)
    !! "/dev/shm/blackbox_tts_in" = Some "say hello" /\
  worker_iterations "synthesize" tts_handle None toy_loads_request
    toy_dump_response 5 "/dev/shm/blackbox_tts_in"
    "/dev/shm/blackbox_tts_out" (mkWorker (Some 1))
    {[ "/dev/shm/blackbox_tts_in" := "say hello" ]}
  = (mkWorker (Some 1), {[ "/dev/shm/blackbox_tts_in" := "say hello" ]}).
Proof.
  split; [reflexivity|].
  apply (repeated_id_is_never_answered "synthesize" tts_handle None
           toy_loads_request toy_dump_response
           "/dev/shm/blackbox_tts_in" "/dev/shm/blackbox_tts_out"
           (mkWorker (Some 1)) _ "say hello"
           (mkWorkerRequest (Some 1) (Some "synthesize") (Some (Some "hello")))
           5); reflexivity.
Defined.

Lemma call_round_trip_witness :
  calls one_tts_call !! 0
    = Some (mkCall tts "synthesize" (Some "hello") Ready) /\
  exists s1 w' files s3,
    step toy_dumps_tts toy_loads_response (Enter 0) one_tts_call = Some s1 /\
    worker_iteration "synthesize" tts_handle None toy_loads_request
      toy_dump_response "/dev/shm/blackbox_tts_in"
      "/dev/shm/blackbox_tts_out" (mkWorker None) (fs s1) = (w', files) /\
    step toy_dumps_tts toy_loads_response (Poll 0) (with_fs s1 files)
      = Some s3 /\
    calls s3 !! 0
    = Some (mkCall tts "synthesize" (Some "hello")
                   (Returned 1 (Some (Handled "wav:hello")))).
Proof.
  split; [reflexivity|].
  destruct (call_round_trip "synthesize" tts_handle None toy_dumps_tts
              toy_loads_response toy_loads_request toy_dump_response
              one_tts_call 0 (mkCall tts "synthesize" (Some "hello") Ready)
              (mkWorker None) "ok wav:hello")
    as (s1 & w' & files & s3 & H1 & H2 & H3 & _ & H4 & _);
    try reflexivity; try discriminate; try (vm_compute; lia).
  exists s1, w', files, s3. repeat split; assumption.
Defined.

End WorkerWitnesses.

Section SynthesisGuard.

Import Transport.
Import Worker.

(** X16.  The synthesis worker refuses an empty text before any engine is
    involved: a [synthesize] request whose [data] is missing, or whose
    [text] is missing or empty, is answered with the error
    [No text provided for synthesis], whatever the engine would do. *)
Theorem empty_text_is_refused {Audio : Type}
    (synthesize : string -> string + Audio)
    (q : worker_request (option string)) :
  wr_method q = Some "synthesize" ->
  default None (wr_data q) = None \/ default None (wr_data q) = Some EmptyString ->
  process_request "synthesize" (_handle_synthesize synthesize) None q
  = mkResponse (wr_id q) (Some "No text provided for synthesis") None.
Proof.
  intros Hm Hempty. unfold process_request. rewrite Hm.
  destruct (decide (Some "synthesize" = Some "synthesize")); [|congruence].
  unfold _handle_synthesize.
  destruct Hempty as [-> | ->]; reflexivity.
Qed.

Lemma empty_text_is_refused_witness :
  wr_method (mkWorkerRequest (Some 7) (Some "synthesize") (Some (Some EmptyString)))
    = Some "synthesize" /\
  process_request "synthesize" (_handle_synthesize Scenarios.speak) None
    (mkWorkerRequest (Some 7) (Some "synthesize") (Some (Some EmptyString)))
  = mkResponse (Some 7) (Some "No text provided for synthesis") None.
Proof.
  split; [reflexivity|].
  apply (empty_text_is_refused Scenarios.speak
           (mkWorkerRequest (Some 7) (Some "synthesize")
                            (Some (Some EmptyString))));
    [reflexivity | right; reflexivity].
Defined.

End SynthesisGuard.

(** ** Coordinator: traces, text path, metrics window *)

Section PipelineMore.

Import Pipeline.
Import PipelineOps.

Ltac unmonad :=
  unfold bind, try_except, ret, raise, gets, modify, when, logger,
         db_create_reminder, db_add_message, db_get_user_context,
         lift_store in *.

Lemma create_reminder_json io db user_id (kwargs : gmap string pyval) :
  (forall iso, kwargs !! "due_date" <> Some (PDatetime iso)) ->
  exists e, Store.create_reminder io db user_id kwargs = inl e.
Proof.
  intros Hjson. unfold Store.create_reminder, Store.bind_create_reminder.
  destruct (decide _); [|eauto].
  destruct (kwargs !! "title"); [|eauto].
  destruct (kwargs !! "due_date") as [due|] eqn:Hdue; [|eauto].
  destruct due; simpl; eauto.
  exfalso. now apply (Hjson iso).
Qed.

(** With arguments from JSON the loop over the calls changes the log
    only. *)
Lemma execute_json_calls env k calls user_id s :
  Forall json_call calls ->
  exists lg,
    _execute_function_calls env k calls user_id s
    = (inr tt,
       mkPipeline (database s) (thermal_monitor s) (psettings s)
                  (ipc_request_id s) (ipc_calls s) (_ready s) (_metrics s)
                  (_latencies s) (log s ++ lg)).
Proof.
  intros Hjson. revert k s.
  induction Hjson as [|call rest Hcall _ IH]; intros k s.
  - exists []. rewrite app_nil_r. now destruct s.
  - assert (Hlog : forall rcd,
               exists lg,
                 _execute_function_calls env (S k) rest user_id (add_log rcd s)
                 = (inr tt,
                    mkPipeline (database s) (thermal_monitor s) (psettings s)
                      (ipc_request_id s) (ipc_calls s) (_ready s)
                      (_metrics s) (_latencies s) (log s ++ lg))).
    { intros rcd. destruct (IH (S k) (add_log rcd s)) as (lg & Heq).
      exists (rcd :: lg). rewrite Heq. simpl. now rewrite <- app_assoc. }
    simpl. unmonad.
    destruct (decide (fc_name call = Some "set_reminder")) as [E1|E1].
    + destruct (create_reminder_json (env_create_reminder env k) (database s)
                  user_id _ Hcall) as [e ->].
      apply Hlog.
    + destruct (decide (fc_name call = Some "access_vault")); [apply IH|].
      destruct (decide (fc_name call = Some "play_media")); [apply IH|].
      apply Hlog.
Qed.

Lemma step_function_calls_json env calls user_id (tm : gmap string Q) s :
  Forall json_call calls ->
  exists lg tm',
    step_function_calls env calls user_id tm s
    = (inr tm',
       mkPipeline (database s) (thermal_monitor s) (psettings s)
                  (ipc_request_id s) (ipc_calls s) (_ready s) (_metrics s)
                  (_latencies s) (log s ++ lg)).
Proof.
  intros Hjson. unfold step_function_calls. destruct calls as [|call rest].
  - exists [], tm. rewrite app_nil_r. now destruct s.
  - unmonad.
    destruct (execute_json_calls env 0 (call :: rest) user_id s Hjson)
      as (lg & ->).
    eexists lg, _. reflexivity.
Qed.

Lemma update_metrics_window tm s :
  exists m lat,
    _update_metrics tm s = (inr tt, set_metrics m lat s) /\
    List.length lat = Nat.min 100 (S (List.length (_latencies s))).
Proof.
  unfold _update_metrics, modify. eexists _, _. split; [reflexivity|].
  assert (Hone : forall x : Q, List.length [x] = 1%nat) by reflexivity.
  destruct (100 <? _)%nat eqn:E.
  - rewrite last_n_length, length_app, Hone.
    apply Nat.ltb_lt in E. rewrite length_app, Hone in E. lia.
  - apply Nat.ltb_ge in E. rewrite length_app, Hone in E |- *. lia.
Qed.

Local Opaque _execute_function_calls py_round Store.select_context
      _update_metrics.

(** Steps 5 to 7 seen from their outcome. *)
Lemma steps_context_tts_totals_result env st user_id session
    pipeline_start asr_time llm_time words reply calls
    (tm : gmap string Q) s :
  let out :=
    steps_context_tts_totals env st user_id session pipeline_start asr_time
      llm_time words reply calls tm s in
  Store.reminders (database (snd out)) = Store.reminders (database s) /\
  match fst out with
  | inr v =>
      transcription v = words /\
      response_text v = reply /\
      Store.messages (database (snd out))
      = (Store.messages (database s)
           ++ appended_turns env user_id words reply)%list /\
      ipc_calls (snd out)
      = (ipc_calls s ++
           [mkIpcCall (S (ipc_request_id s)) Transport.tts "synthesize"
                      (TtsData reply)])%list /\
      List.length (_latencies (snd out))
      = Nat.min 100 (S (List.length (_latencies s)))
  | inl _ => True
  end.
Proof.
  cbv zeta. unfold steps_context_tts_totals, call_service. unmonad.
  unfold Store.add_message.
  destruct (Store.sio_fault (env_add_user env)); simpl; [auto|].
  destruct (Store.sio_fault (env_add_assistant env)); simpl; [auto|].
  destruct (env_tts env); simpl; auto.
  destruct (Qltb _ _); simpl;
    match goal with
    | |- context [_update_metrics ?t ?st] =>
        destruct (update_metrics_window t st) as (m & lat & -> & Hlat)
    end; simpl in *;
    (split; [reflexivity|]); (split; [reflexivity|]);
    (split; [reflexivity|]);
    (split; [now rewrite <- app_assoc|]);
    (split; [reflexivity | exact Hlat]).
Qed.

Local Opaque steps_context_tts_totals step_function_calls.

Ltac frame_step_4 :=
  match goal with
  | |- context [step_function_calls ?e ?c ?u ?t ?st] =>
      let d := fresh "d" in
      let lg := fresh "lg" in
      let tm := fresh "tm" in
      let Heq := fresh "Heq" in
      let Hd := fresh "Hd" in
      let Htm := fresh "Htm" in
      destruct (step_function_calls_frame e c u t st)
        as (d & lg & tm & Heq & Hd & Htm);
      rewrite Heq; simpl in Hd |- *
  end.

Ltac tail_outcome lem r s' H :=
  match goal with
  | |- context [steps_context_tts_totals ?e ?st ?u ?se ?ps ?ta ?tl ?tr ?rp
                  ?cs ?tm ?s0] =>
      pose proof (lem e st u se ps ta tl tr rp cs tm s0) as H;
      cbv zeta in H;
      destruct (steps_context_tts_totals e st u se ps ta tl tr rp cs tm s0)
        as [r s']
  end.

(** What a request that succeeds has done: the context it read, the
    calls it issued, the turns it appended and the latency it recorded. *)
Lemma process_voice_input_success env audio_data user_id session_id s v :
  _ready s = true ->
  fst (process_voice_input env audio_data user_id session_id s) = inr v ->
  let s' := snd (process_voice_input env audio_data user_id session_id s) in
  (exists user_context,
     Store.get_user_context (env_get_context env) (database s) user_id 10
       = inr user_context /\
     ipc_calls s'
     = (ipc_calls s ++
          voice_calls (S (ipc_request_id s)) audio_data (psettings s)
            (transcription v) user_context user_id (response_text v))%list) /\
  Store.messages (database s')
  = (Store.messages (database s)
       ++ appended_turns env user_id (transcription v) (response_text v))%list /\
  List.length (_latencies s') = Nat.min 100 (S (List.length (_latencies s))).
Proof.
  intros Hready. cbv zeta.
  unfold process_voice_input, pipeline_body, call_service. unmonad.
  unfold Store.get_user_context. rewrite Hready. simpl.
  destruct (Thermal.should_throttle (thermal_monitor s));
    (destruct audio_data as [b|a]; simpl; [discriminate|]);
    (destruct (env_asr env) as [ra| | |]; simpl; [|discriminate..]);
    (destruct (Qltb (asr_timeout_seconds _) _); simpl);
    (destruct (Store.sio_fault (env_get_context env)); simpl; [discriminate|]);
    (destruct (env_llm env) as [rl| | |]; simpl; [|discriminate..]);
    (destruct (_ && Qltb _ _); simpl);
    frame_step_4;
    tail_outcome steps_context_tts_totals_result r s' Hout;
    simpl in Hout; destruct Hout as (_ & Hout);
    (destruct r as [e|v']; simpl; [discriminate|]);
    destruct Hout as (Ht & Hr & Hm & Hc & Hl);
    intros Hv; injection Hv as ->;
    (split; [eexists; (split; [reflexivity|]);
             rewrite Hc, Ht, Hr; unfold voice_calls;
             now rewrite <- !app_assoc|]);
    (split; [rewrite Hm, Hd, Ht, Hr; reflexivity | exact Hl]).
Qed.

(** A failing request leaves the latency window alone. *)
Lemma process_voice_input_failure_window env audio_data user_id session_id s e :
  fst (process_voice_input env audio_data user_id session_id s) = inl e ->
  _latencies (snd (process_voice_input env audio_data user_id session_id s))
  = _latencies s.
Proof.
  intros He. destruct (_ready s) eqn:Hready.
  - pose proof (process_voice_input_effect env audio_data user_id session_id
                  s Hready) as H.
    cbv zeta in H. destruct H as (_ & H). rewrite He in H. apply H.
  - unfold process_voice_input. unmonad. now rewrite Hready.
Qed.

(** X17.  The shape of a successful request: it issued exactly three
    transport calls, in this order and with increasing ids, each above the
    id counter the request found - [asr] with the audio, [llm] with the
    transcription as prompt and the user's last ten turns as context,
    [tts] with the response text - and it appended exactly two turns, the
    user's with the transcription and the assistant's with the response
    text it returns. *)
Theorem successful_request_trace
    (env : Env) (audio_data : audio) (user_id : string)
    (session_id : option string) (s : VoicePipeline) (v : voice_result) :
  _ready s = true ->
  fst (process_voice_input env audio_data user_id session_id s) = inr v ->
  let s' := snd (process_voice_input env audio_data user_id session_id s) in
  exists user_context new_calls,
    Store.get_user_context (env_get_context env) (database s) user_id 10
      = inr user_context /\
    ipc_calls s' = (ipc_calls s ++ new_calls)%list /\
    map call_shape new_calls
    = [ (Transport.asr, "transcribe", AsrData audio_data);
        (Transport.llm, "generate",
         llm_request_data (psettings s) (transcription v) user_context
           user_id);
        (Transport.tts, "synthesize", TtsData (response_text v)) ] /\
    StronglySorted lt (ipc_request_id s :: map call_id new_calls) /\
    Store.messages (database s')
    = (Store.messages (database s)
         ++ appended_turns env user_id (transcription v) (response_text v))%list.
Proof.
  intros Hready Hv. cbv zeta.
  destruct (process_voice_input_success env audio_data user_id session_id s v
              Hready Hv) as ((ctx & Hctx & Hcalls) & Hm & _).
  exists ctx. eexists. split; [exact Hctx|]. split; [exact Hcalls|].
  split; [reflexivity|]. split; [|exact Hm].
  cbn [voice_calls map call_id]. repeat constructor; lia.
Qed.

(** X18.  The latency window never grows past its bound: starting with at
    most 100 recorded latencies, after any sequence of voice requests the
    window holds one latency per successful request, capped at 100. *)
Theorem latency_window_is_bounded
    (requests : list voice_request) (s : VoicePipeline) :
  _ready s = true ->
  (List.length (_latencies s) <= 100)%nat ->
  let out := serve requests s in
  List.length (_latencies (snd out))
  = Nat.min 100 (List.length (_latencies s)
                 + (List.length requests - failures (fst out))).
Proof.
  revert s. induction requests as [|rq rest IH]; intros s Hready Hlen;
    cbv zeta.
  - unfold failures. cbn [serve fst snd List.filter List.length]. lia.
  - cbn [serve].
    pose proof (process_voice_input_effect (rq_env rq) (rq_audio rq)
                  (rq_user_id rq) (rq_session_id rq) s Hready) as Heff.
    pose proof (process_voice_input_success (rq_env rq) (rq_audio rq)
                  (rq_user_id rq) (rq_session_id rq) s) as Hok.
    pose proof (process_voice_input_failure_window (rq_env rq) (rq_audio rq)
                  (rq_user_id rq) (rq_session_id rq) s) as Hko.
    cbv zeta in Heff, Hok.
    destruct (process_voice_input (rq_env rq) (rq_audio rq) (rq_user_id rq)
                (rq_session_id rq) s) as [r s1].
    cbn [fst snd] in Heff, Hok, Hko. destruct Heff as (Hready1 & _).
    pose proof (serve_counters rest s1 Hready1) as Hcount.
    cbv zeta in Hcount. destruct Hcount as (_ & Hn & _).
    assert (Hfail : (failures (fst (serve rest s1)) <= List.length rest)%nat).
    { rewrite <- Hn. unfold failures. apply List.filter_length_le. }
    assert (Hlen1 : (List.length (_latencies s1) <= 100)%nat).
    { destruct r as [e|v].
      - now rewrite (Hko e eq_refl).
      - destruct (Hok v Hready eq_refl) as (_ & _ & Hl). rewrite Hl. lia. }
    specialize (IH s1 Hready1 Hlen1). cbv zeta in IH.
    destruct (serve rest s1) as [rs s2]. cbn [fst snd] in *.
    unfold failures in *. rewrite IH.
    destruct r as [e|v]; cbn [List.filter is_failure List.length].
    + rewrite (Hko e eq_refl). lia.
    + destruct (Hok v Hready eq_refl) as (_ & _ & Hl). rewrite Hl. lia.
Qed.

Ltac json_step_4 Hjson :=
  match goal with
  | |- context [step_function_calls ?e ?c ?u ?t ?st] =>
      let lg := fresh "lg" in
      let tm := fresh "tm" in
      let Heq := fresh "Heq" in
      destruct (step_function_calls_json e c u t st Hjson)
        as (lg & tm & Heq);
      rewrite Heq; simpl
  end.

(** X19.  A reminder asked for by voice is never stored.  The arguments of
    a function call come out of the JSON response of the LLM worker, so
    the due date is never a [datetime]; [create_reminder] raises on it (or
    earlier, when binding the arguments), the loop logs the error and goes
    on, and the request ends with the reminders it started with, whether
    it succeeds or fails. *)
Theorem spoken_reminder_is_never_stored
    (env : Env) (audio_data : audio) (user_id : string)
    (session_id : option string) (s : VoicePipeline) :
  (forall rl, env_llm env = Replied rl ->
              Forall json_call (default [] (llm_function_calls rl))) ->
  Store.reminders
    (database (snd (process_voice_input env audio_data user_id session_id s)))
  = Store.reminders (database s).
Proof.
  intros Hjson. destruct (_ready s) eqn:Hready.
  2: { unfold process_voice_input. unmonad. now rewrite Hready. }
  unfold process_voice_input, pipeline_body, call_service. unmonad.
  unfold Store.get_user_context. rewrite Hready. simpl.
  destruct (Thermal.should_throttle (thermal_monitor s));
    (destruct audio_data as [b|a]; simpl; [reflexivity|]);
    (destruct (env_asr env) as [ra| | |]; simpl; [|reflexivity..]);
    (destruct (Qltb (asr_timeout_seconds _) _); simpl);
    (destruct (Store.sio_fault (env_get_context env)); simpl; [reflexivity|]);
    (destruct (env_llm env) as [rl| | |]; simpl; [|reflexivity..]);
    specialize (Hjson rl eq_refl);
    (destruct (_ && Qltb _ _); simpl);
    json_step_4 Hjson;
    tail_outcome steps_context_tts_totals_result r s' Hout;
    simpl in Hout; destruct Hout as (Hrem & _);
    destruct r; simpl; exact Hrem.
Qed.

(** X20.  The upload of [/voice/interact] can never be answered.  The
    endpoint hands the bytes it read to the pipeline, which puts them into
    the request of the ASR call; [json.dumps] refuses bytes, so on a ready
    pipeline every such request ends as status 500 with that message, is
    counted as failed, and leaves the store as it was. *)
Theorem voice_interact_cannot_send_bytes
    (env : Env) (bytes : list Byte.byte) (user_id : string)
    (session_id : option string) (s : VoicePipeline) :
  _ready s = true ->
  let out := voice_interact env bytes user_id session_id s in
  fst out
  = HTTPException 500
      "Voice interaction failed: Object of type bytes is not JSON serializable" /\
  database (snd out) = database s /\
  failed_requests (_metrics (snd out)) = S (failed_requests (_metrics s)) /\
  successful_requests (_metrics (snd out)) = successful_requests (_metrics s).
Proof.
  intros Hready. cbv zeta.
  unfold voice_interact, process_voice_input, pipeline_body, call_service.
  unmonad. rewrite Hready. simpl.
  destruct (Thermal.should_throttle (thermal_monitor s)); simpl;
    repeat split; reflexivity.
Qed.

(** X21.  A pipeline that is not ready turns every voice request away with
    [RuntimeError: Pipeline not ready] and is left exactly as it was: no
    call is issued, nothing is logged, and the rejected requests are not
    counted as failed. *)
Theorem unready_pipeline_serves_nothing
    (requests : list voice_request) (s : VoicePipeline) :
  _ready s = false ->
  serve requests s
  = (map (fun _ => inl (RuntimeError "Pipeline not ready")) requests, s).
Proof.
  intros Hready. induction requests as [|rq rest IH]; [reflexivity|].
  cbn [serve map]. unfold process_voice_input at 1. unmonad.
  rewrite Hready. cbn [negb]. now rewrite IH.
Qed.

(** The text path: what it leaves alone, and on success what it did. *)
Lemma process_text_input_effect env text user_id session_id s :
  let out := process_text_input env text user_id session_id s in
  _metrics (snd out) = _metrics s /\
  _latencies (snd out) = _latencies s /\
  match fst out with
  | inr v =>
      transcription v = text /\
      dom (timing v) = ({[ "llm"; "tts"; "total" ]} : gset string) /\
      (exists user_context,
         Store.get_user_context (env_get_context env) (database s) user_id 10
           = inr user_context /\
         ipc_calls (snd out)
         = (ipc_calls s ++
              [ mkIpcCall (S (ipc_request_id s)) Transport.llm "generate"
                  (llm_request_data (psettings s) text user_context user_id);
                mkIpcCall (S (S (ipc_request_id s))) Transport.tts
                  "synthesize" (TtsData (response_text v)) ])%list) /\
      Store.messages (database (snd out))
      = (Store.messages (database s)
           ++ appended_turns env user_id text (response_text v))%list
  | inl _ => True
  end.
Proof.
  cbv zeta. unfold process_text_input, call_service. unmonad.
  unfold Store.get_user_context, Store.add_message.
  destruct (Store.sio_fault (env_get_context env)); simpl; [auto|].
  destruct (env_llm env) as [rl| | |]; simpl; [|auto..].
  destruct (default [] (llm_function_calls rl)) as [|c cs]; simpl;
    try match goal with
        | |- context [_execute_function_calls ?e ?k ?l ?u ?st] =>
            destruct (execute_function_calls_frame e k l u st)
              as (d & lg & -> & Hd); simpl in Hd |- *
        end;
    (destruct (Store.sio_fault (env_add_user env)); simpl; [auto|]);
    (destruct (Store.sio_fault (env_add_assistant env)); simpl; [auto|]);
    (destruct (env_tts env); simpl; auto);
    do 3 (split; [reflexivity|]);
    (split; [rewrite !dom_insert_L, dom_empty_L; set_solver|]);
    (split; [eexists; (split; [reflexivity|]); now rewrite <- app_assoc|]);
    rewrite ?Hd; now rewrite <- app_assoc.
Qed.

(** X22.  Text requests are invisible to the metrics: whatever
    [process_text_input] does - succeed or fail at any stage - the
    counters, the averages and the latency window are exactly as
    before. *)
Theorem text_requests_are_not_counted
    (env : Env) (text user_id : string) (session_id : option string)
    (s : VoicePipeline) :
  let s' := snd (process_text_input env text user_id session_id s) in
  _metrics s' = _metrics s /\ _latencies s' = _latencies s.
Proof.
  cbv zeta.
  destruct (process_text_input_effect env text user_id session_id s)
    as (Hm & Hl & _).
  auto.
Qed.

(** X23.  The shape of a successful text request: the transcription it
    returns is the text it was given; its timing map has exactly the
    entries [llm], [tts] and [total] (none for ASR, context or overhead);
    it issued exactly two transport calls, [llm] with the text as prompt
    and the user's last ten turns as context, then [tts] with the
    response text; and it appended the two turns of the exchange. *)
Theorem text_request_result
    (env : Env) (text user_id : string) (session_id : option string)
    (s : VoicePipeline) (v : voice_result) :
  fst (process_text_input env text user_id session_id s) = inr v ->
  let s' := snd (process_text_input env text user_id session_id s) in
  transcription v = text /\
  dom (timing v) = ({[ "llm"; "tts"; "total" ]} : gset string) /\
  (exists user_context,
     Store.get_user_context (env_get_context env) (database s) user_id 10
       = inr user_context /\
     ipc_calls s'
     = (ipc_calls s ++
          [ mkIpcCall (S (ipc_request_id s)) Transport.llm "generate"
              (llm_request_data (psettings s) text user_context user_id);
            mkIpcCall (S (S (ipc_request_id s))) Transport.tts
              "synthesize" (TtsData (response_text v)) ])%list) /\
  Store.messages (database s')
  = (Store.messages (database s)
       ++ appended_turns env user_id text (response_text v))%list.
Proof.
  intros Hv. cbv zeta.
  pose proof (process_text_input_effect env text user_id session_id s) as H.
  cbv zeta in H. destruct H as (_ & _ & H). rewrite Hv in H. exact H.
Qed.

End PipelineMore.

Section PipelineMoreWitnesses.

Import Pipeline.
Import PipelineOps.
Import Scenarios.

(** The spoken reminder of the scenarios: three calls with ids above 3,
    and the two turns of the exchange. *)
Lemma successful_request_trace_witness :
  _ready pipeline0 = true /\
  exists v,
    fst (process_voice_input env_all_answer (AudioText "UklGRg==") "alice"
           None pipeline0) = inr v /\
    exists user_context new_calls,
      Store.get_user_context (env_get_context env_all_answer)
        (database pipeline0) "alice" 10 = inr user_context /\
      ipc_calls
        (snd (process_voice_input env_all_answer (AudioText "UklGRg==")
                "alice" None pipeline0))
      = (ipc_calls pipeline0 ++ new_calls)%list /\
      map call_shape new_calls
      = [ (Transport.asr, "transcribe", AsrData (AudioText "UklGRg=="));
          (Transport.llm, "generate",
           llm_request_data (psettings pipeline0) (transcription v)
             user_context "alice");
          (Transport.tts, "synthesize", TtsData (response_text v)) ] /\
      StronglySorted lt (ipc_request_id pipeline0 :: map call_id new_calls) /\
      Store.messages
        (database
           (snd (process_voice_input env_all_answer (AudioText "UklGRg==")
                   "alice" None pipeline0)))
      = (Store.messages (database pipeline0)
           ++ appended_turns env_all_answer "alice" (transcription v)
                (response_text v))%list.
Proof.
  split; [reflexivity|].
  eexists. split; [vm_compute; reflexivity|].
  apply (successful_request_trace env_all_answer (AudioText "UklGRg==")
           "alice" None pipeline0);
    [reflexivity | vm_compute; reflexivity].
Defined.

(** One success and one failure: one latency in the window. *)
Lemma latency_window_is_bounded_witness :
  _ready pipeline0 = true /\
  (List.length (_latencies pipeline0) <= 100)%nat /\
  List.length (_latencies (snd (serve two_requests pipeline0)))
  = Nat.min 100
      (List.length (_latencies pipeline0)
       + (List.length two_requests
          - failures (fst (serve two_requests pipeline0)))).
Proof.
  split; [reflexivity|]. split; [cbn; lia|].
  apply (latency_window_is_bounded two_requests pipeline0);
    [reflexivity | cbn; lia].
Defined.

(** The reminder of the scenarios has its date as JSON text. *)
Lemma spoken_reminder_is_never_stored_witness :
  (forall rl, env_llm env_all_answer = Replied rl ->
              Forall json_call (default [] (llm_function_calls rl))) /\
  Store.reminders
    (database
       (snd (process_voice_input env_all_answer (AudioText "UklGRg==")
               "alice" None pipeline0)))
  = Store.reminders (database pipeline0).
Proof.
  assert (H : forall rl, env_llm env_all_answer = Replied rl ->
                         Forall json_call (default [] (llm_function_calls rl))).
  { intros rl Hrl. injection Hrl as <-.
    repeat constructor; intros iso; vm_compute; discriminate. }
  split; [exact H|].
  apply (spoken_reminder_is_never_stored env_all_answer
           (AudioText "UklGRg==") "alice" None pipeline0 H).
Defined.

Lemma voice_interact_cannot_send_bytes_witness :
  _ready pipeline0 = true /\
  fst (voice_interact env_all_answer riff_bytes "alice" None pipeline0)
  = HTTPException 500
      "Voice interaction failed: Object of type bytes is not JSON serializable".
Proof.
  split; [reflexivity|].
  apply (voice_interact_cannot_send_bytes env_all_answer riff_bytes "alice"
           None pipeline0).
  reflexivity.
Defined.

Lemma unready_pipeline_serves_nothing_witness :
  _ready pipeline_unready = false /\
  serve two_requests pipeline_unready
  = (map (fun _ => inl (RuntimeError "Pipeline not ready")) two_requests,
     pipeline_unready).
Proof.
  split; [reflexivity|].
  apply (unready_pipeline_serves_nothing two_requests pipeline_unready).
  reflexivity.
Defined.

Lemma text_request_result_witness :
  exists v,
    fst (process_text_input env_all_answer "remind me" "alice" None pipeline0)
    = inr v /\
    transcription v = "remind me" /\
    dom (timing v) = ({[ "llm"; "tts"; "total" ]} : gset string).
Proof.
  eexists. split; [vm_compute; reflexivity|].
  split;
    apply (text_request_result env_all_answer "remind me" "alice" None
             pipeline0);
    vm_compute; reflexivity.
Defined.

End PipelineMoreWitnesses.
